(** * Dynamixel AX-12A servo driver: protocol core

    A shallow embedding of the protocol engine of the driver
    (dynamixel.py, servo_ax12a.py, joint_drive.py, custom_decorator.py,
    custom_exceptions.py) and the properties of its packet codec, error
    decoder, register transactions, sync-write and joint setters.

    Python integers are [Z]; Python floats are IEEE binary64 numbers
    ([PrimFloat.float]); packets are lists of integers updated by index;
    the serial line, the debug log and the console are explicit state. *)

From stdpp Require Import base list.
From Stdlib Require Import ZArith Lia.
From Stdlib Require Strings.String Strings.Byte FloatOps SpecFloat.
From Stdlib Require Import PrimFloat.

Import String.StringSyntax.
Abbreviation string := String.string.
Abbreviation float := PrimFloat.float.
Local Open Scope string_scope.
Local Open Scope Z_scope.

(* ===================================================================== *)
(** ** Exceptions, results and the state-and-exception monad *)

(** The exception classes the code can raise: the seven device faults of
    custom_exceptions.py (subclasses of DynamixelError), the two
    JointDriveError subclasses, and the built-in errors of the
    interpreter that the modelled statements can produce. *)
Inductive exn : Type :=
| InputVoltageError | AngleLimitError | OverheatingError | RangeError
| ChecksumError | OverloadError | InstructionError
| MemoryAccessError | PacketTypeError
| AttributeError | IndexError | ValueError | ZeroDivisionError
| OverflowError | TypeError.

Definition exn_eqb (a b : exn) : bool :=
  match a, b with
  | InputVoltageError, InputVoltageError | AngleLimitError, AngleLimitError
  | OverheatingError, OverheatingError | RangeError, RangeError
  | ChecksumError, ChecksumError | OverloadError, OverloadError
  | InstructionError, InstructionError
  | MemoryAccessError, MemoryAccessError | PacketTypeError, PacketTypeError
  | AttributeError, AttributeError | IndexError, IndexError
  | ValueError, ValueError | ZeroDivisionError, ZeroDivisionError
  | OverflowError, OverflowError | TypeError, TypeError => true
  | _, _ => false
  end.

(** What a call hands back to its caller: a value, or an exception that
    propagates. *)
Inductive result (A : Type) : Type :=
| Ok (a : A)
| Raise (e : exn).
Arguments Ok {A} a.
Arguments Raise {A} e.

(** The return values of the modelled methods that return [True] or fall
    off their end ([None]). *)
Inductive value : Type :=
| VNone
| VTrue.

Definition M (S A : Type) : Type := S -> result A * S.

Definition ret {S A} (a : A) : M S A := fun s => (Ok a, s).

Definition bind {S A B} (m : M S A) (k : A -> M S B) : M S B :=
  fun s => match m s with
           | (Ok a, s') => k a s'
           | (Raise e, s') => (Raise e, s')
           end.

Definition raise {S A} (e : exn) : M S A := fun s => (Raise e, s).

Definition gets {S A} (f : S -> A) : M S A := fun s => (Ok (f s), s).

Definition modify {S} (f : S -> S) : M S unit := fun s => (Ok tt, f s).

Notation "'let*' x ':=' c 'in' k" := (bind c (fun x => k))
  (at level 10, x pattern, c at level 100, k at level 200).
Notation "'run' c 'in' k" := (bind c (fun _ => k))
  (at level 10, c at level 100, k at level 200).

(* ===================================================================== *)
(** ** The world outside the objects: serial line, debug log, console *)

(** The serial line (class attribute [__serial_port], shared by all
    objects). [written] is every byte string handed to [write], oldest
    first. [incoming] is what the successive calls of [read] obtain from
    the bus, each cut to the requested size: a short or empty entry is a
    read that ran into the timeout. [requested] records the size asked
    for by each [read]. *)
Record serial : Type := mkSerial {
  written : list (list Z);
  incoming : list (list Byte.byte);
  requested : list Z
}.

(** [debug_log] holds the entries the constructors of the DynamixelError
    subclasses write to debug.log (the class and the name of the function
    in which the fault occurred); [stdout] the lines printed. *)
Record world : Type := mkWorld {
  port : serial;
  debug_log : list (exn * string);
  stdout : list string
}.

Definition set_port (f : serial -> serial) (w : world) : world :=
  mkWorld (f (port w)) (debug_log w) (stdout w).

Definition print_line (msg : string) (w : world) : world :=
  mkWorld (port w) (debug_log w) (stdout w ++ [msg]).

Definition log_line (e : exn) (f_name : string) (w : world) : world :=
  mkWorld (port w) (debug_log w ++ [(e, f_name)]) (stdout w).

(** States that contain a console. *)
Class Console (S : Type) : Type := console : (world -> world) -> S -> S.

#[global] Instance world_console : Console world := fun f w => f w.

Definition print {S} `{Console S} (msg : string) : M S unit :=
  modify (console (print_line msg)).

(** custom_decorator.py, [decorator_error_handling]: the wrapped call's
    value is passed on; any exception is caught, two lines are printed
    and the wrapper returns [None]. *)
Definition decorator_error_handling {S} `{Console S}
    (function : M S value) : M S value :=
  fun s => match function s with
           | (Ok v, s') => (Ok v, s')
           | (Raise _, s') =>
               (run print "!!! Error occured !!!" in
                run print "!!! Check .log file for further information !!!" in
                ret VNone) s'
           end.

(** custom_exceptions.py: instantiating an exception class. The
    subclasses of DynamixelError log the class and the function name to
    debug.log and yield the exception object. JointDriveError derives
    from Exception and defines no [log] method, so the [self.log] call in
    its constructor (inherited by MemoryAccessError and PacketTypeError)
    fails with AttributeError. The built-in classes have no side effect. *)
Definition construct (e : exn) (f_name : string) : M world exn :=
  match e with
  | InputVoltageError | AngleLimitError | OverheatingError | RangeError
  | ChecksumError | OverloadError | InstructionError =>
      run modify (log_line e f_name) in ret e
  | MemoryAccessError | PacketTypeError => raise AttributeError
  | _ => ret e
  end.

(** [raise cls(f_name)] *)
Definition raise_new {A} (e : exn) (f_name : string) : M world A :=
  let* x := construct e f_name in raise x.

(** pyserial: [write] and [read]. *)
Definition serial_write (data : list Z) : M world Z :=
  run modify (set_port (fun p =>
    mkSerial (written p ++ [data]) (incoming p) (requested p))) in
  ret (Z.of_nat (length data)).

Definition byte_to_Z (b : Byte.byte) : Z := Z.of_N (Byte.to_N b).

Definition serial_read (n_byte : Z) : M world (list Z) :=
  let* p := gets port in
  let chunk := match incoming p with [] => [] | c :: _ => c end in
  run modify (set_port (fun p =>
    mkSerial (written p) (tail (incoming p)) (requested p ++ [n_byte]))) in
  ret (byte_to_Z <$> take (Z.to_nat n_byte) chunk).

(* ===================================================================== *)
(** ** Python list and integer primitives *)

(** [sum(l)] *)
Definition sum (l : list Z) : Z := foldr Z.add 0 l.

(** [l[i:-1]]: from index [i] up to, not including, the last element. *)
Definition slice_to_last (i : nat) (l : list Z) : list Z :=
  removelast (drop i l).

(** [l[-1] = v]: IndexError on the empty list. *)
Definition set_last {S} (l : list Z) (v : Z) : M S (list Z) :=
  match l with
  | [] => raise IndexError
  | _ => ret (<[pred (length l) := v]> l)
  end.

(** [bytearray(l)]: ValueError unless every element is in range(256). *)
Definition is_byte (b : Z) : bool := (0 <=? b) && (b <? 256).

Definition bytearray {S} (l : list Z) : M S (list Z) :=
  if forallb is_byte l then ret l else raise ValueError.

(* ===================================================================== *)
(** ** Python floats *)

(** Python's float is IEEE 754 binary64 and its [+], [-], [*], [/] and
    comparisons are the correctly rounded IEEE operations: the kernel's
    primitive floats. *)

(** [math.pi] *)
Definition math_pi : float := (0x1.921fb54442d18p+1)%float.

(** [float(n)] for an integer [n]: rounded to nearest, ties to even. *)
Definition float_of_Z (n : Z) : float :=
  match n with
  | Z0 => PrimFloat.zero
  | Zpos p =>
      FloatOps.SF2Prim
        (SpecFloat.binary_round FloatOps.prec FloatOps.emax false p 0)
  | Zneg p =>
      FloatOps.SF2Prim
        (SpecFloat.binary_round FloatOps.prec FloatOps.emax true p 0)
  end.

(** [a / b] for two integers: the exact quotient rounded once to the
    nearest float, ties to even; ZeroDivisionError for [b = 0],
    OverflowError when the quotient is too large for a float. *)
Definition exact_float (n : Z) : SpecFloat.spec_float :=
  match n with
  | Z0 => SpecFloat.S754_zero false
  | Zpos p => SpecFloat.S754_finite false p 0
  | Zneg p => SpecFloat.S754_finite true p 0
  end.

Definition int_true_div {S} (a b : Z) : M S float :=
  if b =? 0 then raise ZeroDivisionError
  else
    let q := FloatOps.SF2Prim
               (SpecFloat.SFdiv FloatOps.prec FloatOps.emax
                  (exact_float a) (exact_float b)) in
    if PrimFloat.is_infinity q then raise OverflowError else ret q.

(** The integer part of a finite float [m * 2^e], towards zero. *)
Definition magnitude_floor (m : positive) (e : Z) : Z :=
  match e with
  | Zneg k => Z.shiftr (Zpos m) (Zpos k)
  | _ => Z.shiftl (Zpos m) e
  end.

(** Whether the finite float [m * 2^e] has a fractional part. *)
Definition has_fraction (m : positive) (e : Z) : bool :=
  match e with
  | Zneg k => negb (Z.shiftl (magnitude_floor m e) (Zpos k) =? Zpos m)
  | _ => false
  end.

(** [int(x)] for a float: truncation towards zero; ValueError on NaN,
    OverflowError on an infinity. *)
Definition int_of_float {S} (x : float) : M S Z :=
  match FloatOps.Prim2SF x with
  | SpecFloat.S754_zero _ => ret 0
  | SpecFloat.S754_infinity _ => raise OverflowError
  | SpecFloat.S754_nan => raise ValueError
  | SpecFloat.S754_finite s m e =>
      let t := magnitude_floor m e in
      ret (if s then - t else t)
  end.

(** [math.floor(x)]: towards minus infinity, same errors. *)
Definition math_floor {S} (x : float) : M S Z :=
  match FloatOps.Prim2SF x with
  | SpecFloat.S754_zero _ => ret 0
  | SpecFloat.S754_infinity _ => raise OverflowError
  | SpecFloat.S754_nan => raise ValueError
  | SpecFloat.S754_finite s m e =>
      let t := magnitude_floor m e in
      ret (if s then (if has_fraction m e then - t - 1 else - t) else t)
  end.

(** [numpy.clip(x, lo, hi)] on a scalar: [minimum(maximum(x, lo), hi)],
    where a NaN is passed on. *)
Definition numpy_clip (x lo hi : float) : float :=
  if PrimFloat.is_nan x then x
  else if PrimFloat.ltb x lo then lo
  else if PrimFloat.ltb hi x then hi
  else x.

(* ===================================================================== *)
(** ** The objects *)

(** One servo object. dynamixel.py's constructor sets [id],
    [return_level] and [err]; joint_drive.py's constructor adds the joint
    configuration and [savedgoalposition]. *)
Record servo : Type := mkServo {
  id : Z;
  return_level : Z;
  err : Z;
  ccw : bool;
  a_offset : float;
  a_max : float;
  a_min : float;
  savedgoalposition : float
}.

(** The state a method runs in: the object it is called on and the world. *)
Record state : Type := mkState {
  self : servo;
  env : world
}.

#[global] Instance state_console : Console state :=
  fun f s => mkState (self s) (f (env s)).

(** Running code that only touches the world (static methods, the serial
    line) inside a method. *)
Definition lift {A} (m : M world A) : M state A :=
  fun s => let (r, w) := m (env s) in (r, mkState (self s) w).

Definition set_err (e : Z) (s : state) : state :=
  let o := self s in
  mkState (mkServo (id o) (return_level o) e (ccw o) (a_offset o) (a_max o)
                   (a_min o) (savedgoalposition o)) (env s).

Definition set_return_level_field (l : Z) (s : state) : state :=
  let o := self s in
  mkState (mkServo (id o) l (err o) (ccw o) (a_offset o) (a_max o)
                   (a_min o) (savedgoalposition o)) (env s).

Definition set_savedgoalposition (a : float) (s : state) : state :=
  let o := self s in
  mkState (mkServo (id o) (return_level o) (err o) (ccw o) (a_offset o)
                   (a_max o) (a_min o) a) (env s).

(* ===================================================================== *)
(** ** dynamixel.py *)

Module Dynamixel.

Definition _ID_BROADCAST : Z := 0xFE.
Definition __DIRECT_ACTION : Z := 3.
Definition __TRIGGERT_ACTION : Z := 4.
Definition __STATUS_PACKET_BASE_LENGTH : Z := 6.

Definition __pkt_ping : list Z := [255; 255; 0; 0x02; 0x01; 0].
Definition __pkt_action : list Z := [255; 255; 0; 2; 5; 0].
Definition __pkt_read_data : list Z := [255; 255; 0; 4; 2; 0; 0; 0].
Definition __pkt_write_n_byte : list Z := [255; 255; 0; 0; 3; 0].
Definition __pkt_sync_write : list Z := [0xFF; 0xFF; 0xFE; 0; 0x83; 0; 0].

(** [__check_sum]: [s = sum(pkt[2:-1])], then [(~s) & 0xFF]. *)
Definition __check_sum (pkt : list Z) : Z :=
  let s := sum (slice_to_last 2 pkt) in
  Z.land (Z.lnot s) 0xFF.

(** The characters of [bin(err)[2:].zfill(8)[::-1]], in order. A
    character is a binary digit ([Some b]) or the letter [b] ([None]),
    which is left in the string when [err] is negative ([bin(-5)] is
    ['-0b101']). *)
Fixpoint digits_lsb (p : positive) : list (option bool) :=
  match p with
  | xH => [Some true]
  | xO q => Some false :: digits_lsb q
  | xI q => Some true :: digits_lsb q
  end.

Definition zfill_reversed (width : nat) (rev : list (option bool))
    : list (option bool) :=
  rev ++ replicate (width - length rev) (Some false).

Definition reversed_bits (err : Z) : list (option bool) :=
  match err with
  | Z0 => zfill_reversed 8 [Some false]
  | Zpos p => zfill_reversed 8 (digits_lsb p)
  | Zneg p => zfill_reversed 8 (digits_lsb p ++ [None])
  end.

(** [err_lst], in the order of the source. *)
Definition err_lst : list exn :=
  [InputVoltageError; AngleLimitError; OverheatingError; RangeError;
   ChecksumError; OverloadError; InstructionError].

(** The loop of [__log_excep]: [c] counts the characters passed; the
    first character that is a set bit raises [err_lst[c]] (IndexError
    when [c] is past the list); [int(bit)] fails on the letter. *)
Fixpoint scan_bits (bits : list (option bool)) (c : nat) : M world value :=
  match bits with
  | [] => ret VNone
  | None :: _ => raise ValueError
  | Some true :: _ =>
      match err_lst !! c with
      | Some cls => raise_new cls "__log_excep"
      | None => raise IndexError
      end
  | Some false :: rest => scan_bits rest (S c)
  end.

(** The body of [__log_excep], before the decorator is applied. *)
Definition __log_excep_body (err : Z) : M world value :=
  if err =? 0 then ret VTrue
  else scan_bits (reversed_bits err) 0.

(** [__log_excep] as the class binds it: wrapped by
    [decorator_error_handling]. *)
Definition __log_excep (err : Z) : M world value :=
  decorator_error_handling (__log_excep_body err).

(** [__read_status_pkt] *)
Definition __read_status_pkt (n_byte : Z) : M state (list Z) :=
  let* status_packet := lift (serial_read n_byte) in
  run (if Z.of_nat (length status_packet) >=? __STATUS_PACKET_BASE_LENGTH
       then match status_packet !! 4%nat with
            | Some e => modify (set_err e)
            | None => raise IndexError
            end
       else ret tt) in
  let* e := gets (fun s => err (self s)) in
  run lift (__log_excep e) in
  ret status_packet.

(** [__send_packet] *)
Definition __send_packet (pkt : list Z) (read_pkt : bool) : M state unit :=
  let* pkt := set_last pkt (__check_sum pkt) in
  let* bytes := bytearray pkt in
  let* num_bytes := lift (serial_write bytes) in
  let* level := gets (fun s => return_level (self s)) in
  if (level =? 2) && negb read_pkt
  then run __read_status_pkt __STATUS_PACKET_BASE_LENGTH in ret tt
  else ret tt.

(** [__do_action] on an object. *)
Definition __do_action (id_ : Z) : M state unit :=
  let pkt := <[2%nat := id_]> __pkt_action in
  __send_packet pkt false.

(** [__write_read_data_pkt] *)
Definition __write_read_data_pkt (register n_byte : Z) : M state unit :=
  let* i := gets (fun s => id (self s)) in
  let pkt := <[2%nat := i]> __pkt_read_data in
  let pkt := <[5%nat := register]> pkt in
  let pkt := <[6%nat := n_byte]> pkt in
  __send_packet pkt true.

(** [_request_n_byte] *)
Definition _request_n_byte (register dt_len : Z) : M state (list Z) :=
  run __write_read_data_pkt register dt_len in
  let* return_packet :=
    __read_status_pkt (__STATUS_PACKET_BASE_LENGTH + dt_len) in
  ret (slice_to_last 5 return_packet).

(** [_request_n_word] *)
Definition _request_n_word (register dt_w_len : Z) : M state (list Z) :=
  let dt_len := Z.shiftl dt_w_len 1 in
  _request_n_byte register dt_len.

(** [_write_n_byte_pkt] *)
Definition _write_n_byte_pkt (register : Z) (data : list Z)
    (trigger return_status : bool) : M state unit :=
  let* i := gets (fun s => id (self s)) in
  let pkt := <[2%nat := i]> __pkt_write_n_byte in
  let pkt := <[3%nat := Z.of_nat (length data) + 3]> pkt in
  let pkt := <[5%nat := register]> pkt in
  let pkt := if trigger then <[4%nat := __DIRECT_ACTION]> pkt
             else <[4%nat := __TRIGGERT_ACTION]> pkt in
  let pkt := pkt ++ data in
  let pkt := pkt ++ [0] in
  __send_packet pkt return_status.

(** The two bytes appended for one word: low byte, then high byte. *)
Definition word_bytes (dword : Z) : list Z :=
  [Z.land dword 0xFF; Z.land (Z.shiftr dword 8) 0xFF].

(** [_write_n_word_pkt] *)
Definition _write_n_word_pkt (register : Z) (data : list Z)
    (trigger : bool) : M state unit :=
  let data_lst := concat (word_bytes <$> data) in
  _write_n_byte_pkt register data_lst trigger false.

(** [_send_sync] *)
Definition _send_sync (pkt : list Z) : M world unit :=
  let* pkt := set_last pkt (__check_sum pkt) in
  let* bytes := bytearray pkt in
  run serial_write bytes in ret tt.


(** One entry of a sync-write batch: [data[0].id] and [data[1:]]. *)
Definition sync_entry : Type := Z * list Z.

(** The first loop of [_sync_write]: collect the ids and the parameters,
    and after each entry check the running counts. *)
Fixpoint collect (packet : list sync_entry) (id_lst data_lst : list Z)
    : M world (list Z * list Z) :=
  match packet with
  | [] => ret (id_lst, data_lst)
  | data :: rest =>
      let id_lst := id_lst ++ [fst data] in
      let data_lst := data_lst ++ snd data in
      if negb (Z.of_nat (length data_lst) mod Z.of_nat (length id_lst) =? 0)
      then raise_new PacketTypeError "_sync_write"
      else collect rest id_lst data_lst
  end.

(** [len(data_lst) / len(id_lst)]: true division, a float. Both are
    lengths of lists, far below [2^53], so each converts to a float
    without rounding and the float quotient is the rounded exact one. *)
Definition true_div {S} (a b : Z) : M S float :=
  if b =? 0 then raise ZeroDivisionError
  else ret (float_of_Z a / float_of_Z b)%float.

(** The body of [_sync_write], before the decorator is applied. *)
Definition _sync_write_body (mem_address : Z) (packet : list sync_entry)
    : M world value :=
  let pkt := __pkt_sync_write in
  let* (id_lst, data_lst) := collect packet [] [] in
  let* q := true_div (Z.of_nat (length data_lst))
                     (Z.of_nat (length id_lst)) in
  let* data_length := int_of_float (q * 2)%float in
  let pkt := <[3%nat := (data_length + 1) * Z.of_nat (length id_lst) + 4]>
               pkt in
  let pkt := <[5%nat := mem_address]> pkt in
  let pkt := <[6%nat := data_length]> pkt in
  let pkt := pkt ++ concat ((fun param : sync_entry =>
                 fst param :: concat (word_bytes <$> snd param)) <$> packet) in
  let pkt := pkt ++ [0] in
  run _send_sync pkt in
  ret VNone.

(** [_sync_write] as the class binds it. *)
Definition _sync_write (mem_address : Z) (packet : list sync_entry)
    : M world value :=
  decorator_error_handling (_sync_write_body mem_address packet).

(** [action_all]: [__do_action] called with the class itself in the place
    of [self]. Looked up on the class, [self.__send_packet] is the plain
    function, so the call [self.__send_packet(pkt)] binds the packet to
    its first parameter and leaves the parameter [pkt] without a value:
    TypeError, before the checksum is computed and before anything is
    written. *)
Definition action_all : M world unit := raise TypeError.

(** [ping] *)
Definition ping (id : Z) : M world (list Z) :=
  let ping := <[2%nat := id]> __pkt_ping in
  let* ping := set_last ping (__check_sum ping) in
  let* bytes := bytearray ping in
  run serial_write bytes in
  serial_read __STATUS_PACKET_BASE_LENGTH.

(** [action] *)
Definition action : M state unit :=
  let* i := gets (fun s => id (self s)) in
  __do_action i.

(** [get_last_error] *)
Definition get_last_error : M state Z := gets (fun s => err (self s)).

(** [read_port] *)
Definition read_port (n_byte : Z) : M state (list Z) :=
  __read_status_pkt n_byte.

End Dynamixel.

(* ===================================================================== *)
(** ** servo_ax12a.py *)

Module ServoAx12a.
Import Dynamixel.

Definition __RETURN_DELAY_TIME : Z := 0x05.
Definition __RETURN_LEVEL : Z := 0x10.
Definition __GOAL_POSITION : Z := 0x1E.
Definition __MOVING_SPEED : Z := 0x20.
Definition __PRESENT_POSITION : Z := 0x24.
Definition __PRESENT_SPEED : Z := 0x26.
Definition __CW_ANGLE_LIMIT : Z := 0x06.
Definition __CCW_ANGLE_LIMIT : Z := 0x08.
Definition __PRESENT_VOLTAGE : Z := 0x2A.

Definition _ANGLE_MAX_TICKS : Z := 1023.
Definition _ANGLE_MAX_DEGREE : Z := 300.
Definition _ANGLE_MIN_DEGREE : Z := 0.
(** [0.111] *)
Definition _SPEED_UNIT : float := (0x1.c6a7ef9db22d1p-4)%float.
Definition _SPEED_MAX_TICKS : Z := 1023.
Definition _SPEED_MAX_RPM : float := (1023 * _SPEED_UNIT)%float.
Definition _LIMITED_MAX_RPM : Z := 80.
(** [int((_ANGLE_MAX_TICKS / _SPEED_MAX_RPM) * _LIMITED_MAX_RPM)] *)
Definition _LIMITED_MAX_TICKS : Z :=
  Eval vm_compute in
    match int_of_float ((1023 / _SPEED_MAX_RPM) * 80)%float tt with
    | (Ok n, _) => n
    | _ => 0
    end.
Definition _LIMITED_PERC_UNIT : float :=
  (float_of_Z _LIMITED_MAX_TICKS / 100)%float.

(** [__merge_two_bytes] *)
Definition __merge_two_bytes (a b : Z) : Z :=
  let a := a * 256 in
  a + b.

(** [l[i]] on a list: IndexError past the end. *)
Definition item {S} (l : list Z) (i : nat) : M S Z :=
  match l !! i with
  | Some x => ret x
  | None => raise IndexError
  end.

(** [return self.__merge_two_bytes(return_data[1], return_data[0])] *)
Definition merge_reply (return_data : list Z) : M state Z :=
  let* hi := item return_data 1 in
  let* lo := item return_data 0 in
  ret (__merge_two_bytes hi lo).

Definition get_return_level : M state Z :=
  let* d := _request_n_byte __RETURN_LEVEL 1 in item d 0.

Definition get_goal_position : M state Z :=
  let* return_data := _request_n_word __GOAL_POSITION 1 in
  merge_reply return_data.

Definition get_present_position : M state Z :=
  let* return_data := _request_n_word __PRESENT_POSITION 1 in
  merge_reply return_data.

Definition get_present_voltage : M state Z :=
  let* d := _request_n_byte __PRESENT_VOLTAGE 1 in item d 0.

Definition set_return_level (level : Z) (trigger : bool) : M state unit :=
  let* current := gets (fun s => return_level (self s)) in
  let switch_level := (current =? 1) && (level =? 2) in
  run _write_n_byte_pkt __RETURN_LEVEL [level] trigger switch_level in
  modify (set_return_level_field level).

Definition set_goal_position (position : Z) (trigger : bool)
    : M state unit :=
  _write_n_word_pkt __GOAL_POSITION [position] trigger.

Definition set_moving_speed (speed : Z) (trigger : bool) : M state unit :=
  _write_n_word_pkt __MOVING_SPEED [speed] trigger.

Definition set_goal_pos_speed (position speed : Z) (trigger : bool)
    : M state unit :=
  run _write_n_word_pkt __GOAL_POSITION [position] trigger in
  _write_n_word_pkt __MOVING_SPEED [speed] trigger.

Definition set_cw_angle_limit (angle : Z) (trigger : bool) : M state unit :=
  _write_n_word_pkt __CW_ANGLE_LIMIT [angle] trigger.

Definition set_ccw_angle_limit (angle : Z) (trigger : bool) : M state unit :=
  _write_n_word_pkt __CCW_ANGLE_LIMIT [angle] trigger.

(** The remaining getters and setters of the class. *)

Definition __PRESENT_TEMPERATURE : Z := 0x2B.
Definition __MOVING_STATUS : Z := 0x2E.

(** [__split_word_in_bytes] *)
Definition __split_word_in_bytes (word : Z) : list Z :=
  let a := Z.land word 255 in
  let b := Z.shiftr word 8 in
  [a; b].

Definition get_return_delay : M state Z :=
  let* d := _request_n_byte __RETURN_DELAY_TIME 1 in item d 0.

Definition get_moving_speed : M state Z :=
  let* return_data := _request_n_word __MOVING_SPEED 1 in
  merge_reply return_data.

Definition get_present_speed : M state Z :=
  let* return_data := _request_n_word __PRESENT_SPEED 1 in
  merge_reply return_data.

Definition get_goal_pos_speed : M state (list Z) :=
  let* return_data := _request_n_word __GOAL_POSITION 1 in
  let* pos := merge_reply return_data in
  let* return_data := _request_n_word __MOVING_SPEED 1 in
  let* speed := merge_reply return_data in
  ret [pos; speed].

Definition get_present_pos_speed : M state (list Z) :=
  let* return_data := _request_n_word __PRESENT_POSITION 1 in
  let* pos := merge_reply return_data in
  let* return_data := _request_n_word __PRESENT_SPEED 1 in
  let* speed := merge_reply return_data in
  ret [pos; speed].

Definition get_moving_status : M state Z :=
  let* d := _request_n_byte __MOVING_STATUS 1 in item d 0.

Definition get_present_temperature : M state Z :=
  let* d := _request_n_byte __PRESENT_TEMPERATURE 1 in item d 0.

Definition set_return_delay (delay : Z) (trigger : bool) : M state unit :=
  _write_n_byte_pkt __RETURN_DELAY_TIME [delay] trigger false.

End ServoAx12a.

(* ===================================================================== *)
(** ** joint_drive.py *)

Module JointDrive.
Import Dynamixel.

(** [(_ANGLE_MAX_DEGREE - _ANGLE_MIN_DEGREE) * math.pi / 360] *)
Definition _ANGLE_RADIAN_ZERO : float := (300 * math_pi / 360)%float.

(** [_ANGLE_MAX_TICKS /
     ((_ANGLE_MAX_DEGREE - _ANGLE_MIN_DEGREE) * math.pi * 2 / 360)] *)
Definition _ANGLE_UNIT : float := (1023 / (300 * math_pi * 2 / 360))%float.

(** [__convert_angle_to_ticks] *)
Definition __convert_angle_to_ticks {S} (angle : float) (ccw : bool)
    (offset : float) : M S Z :=
  let angle := (angle + offset)%float in
  let* ticks := int_of_float (angle * _ANGLE_UNIT)%float in
  let ticks := if ccw then 1023 - 1 - ticks else ticks in
  ret ticks.

(** [__convert_ticks_to_angle] *)
Definition __convert_ticks_to_angle (ticks : Z) (ccw : bool)
    (offset : float) : float :=
  let ticks := if ccw then 1023 - ticks else ticks in
  let angle := (float_of_Z ticks / _ANGLE_UNIT)%float in
  let angle := (angle - offset)%float in
  angle.

(** [__convert_speed_to_ticks] *)
Definition __convert_speed_to_ticks {S} (speed : float) : M S Z :=
  let speed := numpy_clip speed 0 ServoAx12a._SPEED_MAX_RPM in
  let ticks := (speed / ServoAx12a._SPEED_UNIT)%float in
  math_floor (ticks + 0.5)%float.

(** [__convert_ticks_to_speed] *)
Definition __convert_ticks_to_speed {S} (ticks : Z) : M S Z :=
  let ticks := Z.min (Z.max ticks 0) ServoAx12a._SPEED_MAX_TICKS in
  math_floor (float_of_Z ticks * ServoAx12a._SPEED_UNIT)%float.

(** [__convert_percent_speed_to_ticks] *)
Definition __convert_percent_speed_to_ticks {S} (perc : float) : M S Z :=
  let perc := numpy_clip perc 0 100 in
  math_floor (perc * ServoAx12a._LIMITED_PERC_UNIT)%float.

(** [__convert_ticks_to_voltage]: [ticks / 10] on an integer. *)
Definition __convert_ticks_to_voltage {S} (ticks : Z) : M S float :=
  int_true_div ticks 10.

(** [__init__]: the fields, then the three register writes. *)
Definition __init__ (id_ : Z) (ccw : bool) (a_offset a_max a_min : float)
    : M world servo :=
  let o := mkServo id_ 2 0x00 ccw (_ANGLE_RADIAN_ZERO + a_offset)%float
                   a_max a_min 0%float in
  fun w =>
    let m : M state unit :=
      let* level := gets (fun s => return_level (self s)) in
      run ServoAx12a.set_return_level level true in
      let* lo := __convert_angle_to_ticks a_min false 0 in
      run ServoAx12a.set_cw_angle_limit lo true in
      let* hi := __convert_angle_to_ticks a_max false 0 in
      ServoAx12a.set_ccw_angle_limit hi true in
    match m (mkState o w) with
    | (Ok _, s) => (Ok (self s), env s)
    | (Raise e, s) => (Raise e, env s)
    end.

(** [get_present_position] *)
Definition get_present_position : M state float :=
  let* ticks := ServoAx12a.get_present_position in
  let* o := gets self in
  ret (__convert_ticks_to_angle ticks (ccw o) (a_offset o)).

(** [get_goal_position] *)
Definition get_goal_position : M state float :=
  let* return_data := ServoAx12a.get_goal_position in
  let* o := gets self in
  ret (__convert_ticks_to_angle return_data (ccw o) (a_offset o)).

(** [get_saved_goal_position] *)
Definition get_saved_goal_position : M state float :=
  gets (fun s => savedgoalposition (self s)).

(** The body of [set_goal_position]. Its first statement assigns the
    angle to a local variable named [savedgoalposition], not to the
    attribute of [self]. *)
Definition set_goal_position_body (angle : float) (trigger : bool)
    : M state value :=
  let savedgoalposition := angle in
  let* o := gets self in
  if (a_max o - a_offset o <? angle)%float then
    run print "Angle zu groß" in ret VTrue
  else if (angle <? a_min o - a_offset o)%float then
    run print "Angle zu klein" in ret VTrue
  else
    let* ticks := __convert_angle_to_ticks angle (ccw o) (a_offset o) in
    run ServoAx12a.set_goal_position ticks trigger in
    ret VNone.

Definition set_goal_position (angle : float) (trigger : bool)
    : M state value :=
  decorator_error_handling (set_goal_position_body angle trigger).

(** The body of [set_desired_angle_speed]. *)
Definition set_desired_angle_speed_body (angle speed : float)
    (trigger : bool) : M state value :=
  run modify (set_savedgoalposition angle) in
  let* o := gets self in
  if (a_max o - a_offset o <? angle)%float then
    run print "Angle zu groß" in ret VTrue
  else if (angle <? a_min o - a_offset o)%float then
    run print "Angle zu klein" in ret VTrue
  else if (ServoAx12a._SPEED_MAX_RPM <? speed)%float
          || (speed <? 0)%float then
    run print "Invalid speed value" in ret VTrue
  else
    let* angle_ticks :=
      __convert_angle_to_ticks angle (ccw o) (a_offset o) in
    let* speed_ticks := __convert_percent_speed_to_ticks speed in
    run ServoAx12a.set_goal_pos_speed angle_ticks speed_ticks trigger in
    ret VNone.

Definition set_desired_angle_speed (angle speed : float) (trigger : bool)
    : M state value :=
  decorator_error_handling (set_desired_angle_speed_body angle speed trigger).

(** [get_present_voltage] (the second definition in the class, which
    replaces the first; both divide the register value by ten). *)
Definition get_present_voltage : M state float :=
  let* ticks := ServoAx12a.get_present_voltage in
  int_true_div ticks 10.

(** [get_moving_speed] *)
Definition get_moving_speed : M state Z :=
  let* return_data := ServoAx12a.get_moving_speed in
  __convert_ticks_to_speed return_data.

(** [get_present_speed] *)
Definition get_present_speed : M state Z :=
  let* return_data := ServoAx12a.get_present_speed in
  __convert_ticks_to_speed return_data.

(** The body of [set_speed_rpm]. *)
Definition set_speed_rpm_body (speed : float) (trigger : bool)
    : M state value :=
  if (ServoAx12a._SPEED_MAX_RPM <? speed)%float || (speed <? 0)%float then
    run print "Invalid speed value" in ret VTrue
  else
    let* speed_ticks := __convert_speed_to_ticks speed in
    run ServoAx12a.set_moving_speed speed_ticks trigger in
    ret VNone.

Definition set_speed_rpm (speed : float) (trigger : bool) : M state value :=
  decorator_error_handling (set_speed_rpm_body speed trigger).

(** The body of [set_speed_percent]. *)
Definition set_speed_percent_body (perc : float) (trigger : bool)
    : M state value :=
  if (100 <? perc)%float || (perc <? 0)%float then
    run print "Invalid speed value" in ret VTrue
  else
    let* ticks := __convert_percent_speed_to_ticks perc in
    run ServoAx12a.set_moving_speed ticks trigger in
    ret VNone.

Definition set_speed_percent (perc : float) (trigger : bool)
    : M state value :=
  decorator_error_handling (set_speed_percent_body perc trigger).

(** [decorator_error_handling] around a function whose results are not
    [True] or [None] alone: the same wrapper, returning [none] when it
    has caught an exception. *)
Definition decorated {S V} `{Console S} (none : V) (function : M S V)
    : M S V :=
  fun s => match function s with
           | (Ok v, s') => (Ok v, s')
           | (Raise _, s') =>
               (run print "!!! Error occured !!!" in
                run print "!!! Check .log file for further information !!!" in
                ret none) s'
           end.

(** One argument of [set_angle_speed_sync]: something that is not a
    list, the empty list, or a list that starts with a joint object and
    goes on with numbers. *)
Inductive sync_arg : Type :=
| NotAList
| EmptyList
| JointList (o : servo) (numbers : list float).

(** The loop of [set_angle_speed_sync], which turns each argument
    [[joint, angle, speed]] into the entry [[joint, ticks, ticks]] for
    [_sync_write]. It first sets an attribute [savedGoalPosition] on the
    joint passed in: not the attribute [savedgoalposition] that the
    getter reads, and not part of the modelled state. The speed is
    converted through [data[0].___convert_percent_speed_to_ticks], with
    three underscores: inside the class this name is mangled to
    [_JointDrive___convert_percent_speed_to_ticks], an attribute no
    joint has. *)
Fixpoint convert_entries (packet : list sync_arg)
    : M world (list Dynamixel.sync_entry) :=
  match packet with
  | [] => ret []
  | data :: rest =>
      let* entry :=
        match data with
        | NotAList => raise_new PacketTypeError "set_angle_speed_sync"
        | EmptyList => raise IndexError
        | JointList o numbers =>
            match numbers with
            | [] => raise IndexError
            | angle :: _ =>
                let len := Z.of_nat (Datatypes.S (length numbers)) in
                if 3 <? len then
                  raise_new MemoryAccessError "set_angle_speed_sync"
                else if len <? 3 then
                  raise_new PacketTypeError "set_angle_speed_sync"
                else
                  let* ticks :=
                    __convert_angle_to_ticks angle (ccw o) (a_offset o) in
                  let* speed_ticks := raise (A:=Z) AttributeError in
                  ret (id o, [ticks; speed_ticks])
            end
        end in
      let* entries := convert_entries rest in
      ret (entry :: entries)
  end.

(** The body of [set_angle_speed_sync]: [-1] for no argument at all. *)
Definition set_angle_speed_sync_body (packet : list sync_arg)
    : M world (option Z) :=
  match packet with
  | [] => ret (Some (-1))
  | _ =>
      let* entries := convert_entries packet in
      run Dynamixel._sync_write ServoAx12a.__GOAL_POSITION entries in
      ret None
  end.

Definition set_angle_speed_sync (packet : list sync_arg)
    : M world (option Z) :=
  decorated None (set_angle_speed_sync_body packet).

End JointDrive.

(* ===================================================================== *)
(** ** Observations used in the statements *)

(** The byte strings handed to the serial line so far. *)
Definition sent (w : world) : list (list Z) := written (port w).

(** What a call surfaces to its caller as a fault. *)
Definition surfaced {A S} (r : result A * S) : option exn :=
  match fst r with
  | Ok _ => None
  | Raise e => Some e
  end.

(** The wire rule for the trailing byte of a packet:
    [(~sum(pkt[2:-1])) & 0xFF]. *)
Definition checksum_ok (pkt : list Z) : Prop :=
  last pkt = Some (Z.land (Z.lnot (sum (removelast (drop 2 pkt)))) 0xFF).

(** The operations of the driver that put a packet on the line. *)
Inductive instruction : Type :=
| Ping (id_ : Z)
| Action
| ActionAll
| ReadData (register n_byte : Z)
| WriteBytes (register : Z) (data : list Z) (trigger return_status : bool)
| WriteWords (register : Z) (data : list Z) (trigger : bool)
| SyncWrite (mem_address : Z) (packet : list Dynamixel.sync_entry).

Definition transmit (i : instruction) : M state unit :=
  match i with
  | Ping id_ => run lift (Dynamixel.ping id_) in ret tt
  | Action => Dynamixel.action
  | ActionAll => lift Dynamixel.action_all
  | ReadData register n_byte =>
      run Dynamixel._request_n_byte register n_byte in ret tt
  | WriteBytes register data trigger return_status =>
      Dynamixel._write_n_byte_pkt register data trigger return_status
  | WriteWords register data trigger =>
      Dynamixel._write_n_word_pkt register data trigger
  | SyncWrite mem_address packet =>
      run lift (Dynamixel._sync_write mem_address packet) in ret tt
  end.

(** A call relates the state it starts in to the state it leaves, whether
    it returns or raises. *)
Definition steps {S A} (R : relation S) (m : M S A) : Prop :=
  forall s, R s (snd (m s)).

(** The line only grows, and by packets that satisfy [P]. *)
Definition grows_by (P : list Z -> Prop) : relation world :=
  fun w w' => exists new, sent w' = sent w ++ new /\ Forall P new.

(** The same for a method call, which in addition leaves the saved goal
    position of its object alone. *)
Definition grows_by_st (P : list Z -> Prop) : relation state :=
  fun s s' =>
    grows_by P (env s) (env s')
    /\ savedgoalposition (self s') = savedgoalposition (self s).

(** The soft-limit tests of the joint setters:
    [angle > (self.a_max - self.a_offset)] and
    [angle < (self.a_min - self.a_offset)]. *)
Definition too_large (o : servo) (angle : float) : bool :=
  (a_max o - a_offset o <? angle)%float.

Definition too_small (o : servo) (angle : float) : bool :=
  (angle <? a_min o - a_offset o)%float.

Definition outside_limits (o : servo) (angle : float) : bool :=
  too_large o angle || too_small o angle.

(** The world after [data] has been handed to the serial line. *)
Definition after_write (data : list Z) (w : world) : world :=
  set_port (fun p =>
    mkSerial (written p ++ [data]) (incoming p) (requested p)) w.

(** A status packet as the wire format describes it: header [FF FF], a
    length field that matches the byte count, and a trailing checksum
    over the bytes from the id to the last parameter. *)
Definition well_formed_status (raw : list Z) : bool :=
  match raw with
  | h1 :: h2 :: _ :: len :: _ =>
      (h1 =? 0xFF) && (h2 =? 0xFF)
      && (len + 4 =? Z.of_nat (length raw))
      && bool_decide
           (last raw
            = Some (Z.land (Z.lnot (sum (removelast (drop 2 raw)))) 0xFF))
  | _ => false
  end.

(** The check in the first loop of [_sync_write], read off a batch: after
    [k] entries, the number of values collected is not a multiple of
    [k]. *)
Definition counts_mismatch_at (packet : list Dynamixel.sync_entry) (k : nat)
    : bool :=
  negb (Z.of_nat (length (concat (snd <$> take k packet))) mod Z.of_nat k
        =? 0).

Definition check_fires (packet : list Dynamixel.sync_entry) : bool :=
  existsb (counts_mismatch_at packet) (seq 1 (length packet)).

(** Two entries of a batch carry value lists of different lengths. *)
Definition lengths_differ (packet : list Dynamixel.sync_entry) : Prop :=
  exists a b, In a packet /\ In b packet
              /\ length (snd a) <> length (snd b).

(** The faults the error-byte table assigns to a byte: one for each set
    bit among bits 0 to 6, in bit order. *)
Definition faults_of_byte (err : Z) : list exn :=
  omap (fun k : nat =>
          if Z.testbit err (Z.of_nat k) then Dynamixel.err_lst !! k else None)
       (seq 0 7).

(** [k] is the position of the lowest set bit of [err]. *)
Definition lowest_set_bit (err : Z) (k : nat) : Prop :=
  Z.testbit err (Z.of_nat k) = true
  /\ forall j : nat, (j < k)%nat -> Z.testbit err (Z.of_nat j) = false.

(** The number of trailing zero bits of a positive number. *)
Fixpoint ctz (p : positive) : nat :=
  match p with
  | xO q => Datatypes.S (ctz q)
  | _ => 0%nat
  end.

(** The console after the decorator has caught an exception. *)
Definition caught (w : world) : world :=
  print_line "!!! Check .log file for further information !!!"
    (print_line "!!! Error occured !!!" w).

(** A world in which nothing has happened yet and no reply is pending. *)
Definition quiet_world : world := mkWorld (mkSerial [] [] []) [] [].

(** The same, with the given replies pending on the line. *)
Definition byte_of_Z (b : Z) : Byte.byte :=
  default Byte.x00 (Byte.of_N (Z.to_N b)).

Definition world_with (replies : list (list Z)) : world :=
  mkWorld (mkSerial [] (map (map byte_of_Z) replies) []) [] [].

(** What the loop of [__log_excep] does on reaching a set bit at
    position [k]. *)
Definition outcome_at (k : nat) : M world value :=
  match Dynamixel.err_lst !! k with
  | Some cls => raise_new cls "__log_excep"
  | None => raise IndexError
  end.

(** What [__init__] leaves in a joint built with the default arguments
    ([a_offset = 0.0], [a_max = 300*(2*math.pi/360)], [a_min = 0]). *)
Definition default_joint (id_ : Z) (ccw : bool) : servo :=
  mkServo id_ 2 0 ccw (JointDrive._ANGLE_RADIAN_ZERO + 0)%float
          (300 * (2 * math_pi / 360))%float 0%float 0%float.

(** The bytes a [read] of [n] bytes obtains in world [w], and the world
    it leaves. *)
Definition received (n : Z) (w : world) : list Z :=
  byte_to_Z <$> take (Z.to_nat n)
    (match incoming (port w) with [] => [] | c :: _ => c end).

Definition after_read (n : Z) (w : world) : world :=
  set_port (fun p =>
    mkSerial (written p) (tail (incoming p)) (requested p ++ [n])) w.

(** The error value [__read_status_pkt] holds in [self.err] once it has
    looked at the bytes [raw]: byte 4 of a reply of at least six bytes,
    else the value stored before. *)
Definition err_after (raw : list Z) (o : servo) : Z :=
  if Z.of_nat (length raw) >=? 6 then default (err o) (raw !! 4%nat)
  else err o.

(** The serial line is left as it was: nothing written, nothing read. *)
Definition same_port : relation world := fun w w' => port w' = port w.

(** A tick value turned into an angle by [__convert_ticks_to_angle] and
    back into ticks by [__convert_angle_to_ticks], for one rotation sense
    and offset: what reading a position and commanding it again does. *)
Definition ticks_there_and_back (ccw : bool) (offset : float) (t : Z)
    : result Z :=
  fst (JointDrive.__convert_angle_to_ticks
         (JointDrive.__convert_ticks_to_angle t ccw offset) ccw offset tt).

(** An angle turned into ticks by [__convert_angle_to_ticks] and back
    into an angle by [__convert_ticks_to_angle], for one rotation sense
    and offset. *)
Definition angle_there_and_back (ccw : bool) (offset angle : float)
    : result float :=
  match fst (JointDrive.__convert_angle_to_ticks angle ccw offset tt) with
  | Ok ticks => Ok (JointDrive.__convert_ticks_to_angle ticks ccw offset)
  | Raise e => Raise e
  end.

(** The radians of one tick. *)
Definition one_tick : float := (1 / JointDrive._ANGLE_UNIT)%float.

(** [r] is an angle no further from [angle] than the radians of one
    tick. *)
Definition within_one_tick (angle : float) (r : result float) : bool :=
  match r with
  | Ok angle' => (abs (angle' - angle) <=? one_tick)%float
  | Raise _ => false
  end.

(** What [__init__] leaves in the joint
    [JointDrive(1, ccw=True, a_offset=-JointDrive._ANGLE_RADIAN_ZERO,
                a_min=-0.005)]:
    rotation reversed, the offset [_ANGLE_RADIAN_ZERO + a_offset] zero,
    the default upper limit, and a lower limit just below zero. *)
Definition reversed_joint : servo :=
  mkServo 1 2 0 true 0%float (300 * (2 * math_pi / 360))%float
          (-0x1.47ae147ae147bp-8)%float 0%float.

(** [t'] is [t] or the tick below it. *)
Definition same_or_below (t : Z) (r : result Z) : bool :=
  match r with
  | Ok t' => (t - 1 <=? t') && (t' <=? t)
  | Raise _ => false
  end.

(** The result is a speed between 0 and 113 rpm. *)
Definition is_rpm (r : result Z) : bool :=
  match r with
  | Ok v => (0 <=? v) && (v <=? 113)
  | Raise _ => false
  end.

(** Every entry of a batch carries [n] values. *)
Definition uniform (n : nat) (packet : list Dynamixel.sync_entry) : Prop :=
  Forall (fun e => length (snd e) = n) packet.

(** The parameters of a sync-write frame after the address and the data
    length: for each entry its id, then each value as low byte and high
    byte. *)
Definition sync_payload (packet : list Dynamixel.sync_entry) : list Z :=
  concat ((fun e : Dynamixel.sync_entry =>
             fst e :: concat ((fun v => [v mod 256; (v / 256) mod 256])
                              <$> snd e)) <$> packet).

(** [int((len(data_lst) / len(id_lst)) * 2)] for [m] entries of [n]
    values each, computed in floating point as the code does, is [2n]. *)
Definition data_length_ok (m n : nat) : bool :=
  match int_of_float
          (float_of_Z (Z.of_nat (m * n)) / float_of_Z (Z.of_nat m) * 2)%float
          tt with
  | (Ok d, _) => d =? 2 * Z.of_nat n
  | _ => false
  end.

(** The state of a method after the decorator has caught an exception. *)
Definition caught_st (s : state) : state := mkState (self s) (caught (env s)).

(* ===================================================================== *)
(** * Properties *)

(** ** Stepping lemmas for the monad *)

Section Steps.
Context {S : Type} (R : relation S) `{!PreOrder R}.

Lemma steps_ret {A} (a : A) : steps R (ret a).
Proof. intros s. reflexivity. Qed.

Lemma steps_raise {A} (e : exn) : steps R (raise (A:=A) e).
Proof. intros s. reflexivity. Qed.

Lemma steps_gets {A} (f : S -> A) : steps R (gets f).
Proof. intros s. reflexivity. Qed.

Lemma steps_modify (f : S -> S) :
  (forall s, R s (f s)) -> steps R (modify f).
Proof. intros H s. apply H. Qed.

Lemma steps_bind {A B} (m : M S A) (k : A -> M S B) :
  steps R m -> (forall a, steps R (k a)) -> steps R (bind m k).
Proof.
  intros Hm Hk s. unfold bind. specialize (Hm s).
  destruct (m s) as [[a|e] s']; simpl in *.
  - transitivity s'; [exact Hm | apply Hk].
  - exact Hm.
Qed.

Lemma steps_set_last {A} (l : list Z) (v : Z) (k : list Z -> M S A) :
  (forall l', steps R (k l')) -> steps R (bind (set_last l v) k).
Proof.
  intros Hk. apply steps_bind; [| exact Hk].
  unfold set_last. destruct l; [apply steps_raise | apply steps_ret].
Qed.

Lemma steps_bytearray (l : list Z) : steps R (bytearray l).
Proof.
  unfold bytearray. destruct (forallb is_byte l);
    [apply steps_ret | apply steps_raise].
Qed.

Lemma steps_int_of_float (x : float) : steps R (int_of_float x).
Proof.
  unfold int_of_float.
  destruct (FloatOps.Prim2SF x); auto using steps_ret, steps_raise.
Qed.

Lemma steps_math_floor (x : float) : steps R (math_floor x).
Proof.
  unfold math_floor.
  destruct (FloatOps.Prim2SF x); auto using steps_ret, steps_raise.
Qed.

Lemma steps_decorator `{Console S} (m : M S value) :
  (forall msg s, R s (console (print_line msg) s)) ->
  steps R m -> steps R (decorator_error_handling m).
Proof.
  intros Hp Hm s. unfold decorator_error_handling. specialize (Hm s).
  destruct (m s) as [[v|e] s']; simpl in *; [exact Hm |].
  transitivity s'; [exact Hm |].
  transitivity (console (print_line "!!! Error occured !!!") s');
    apply Hp.
Qed.

End Steps.

Lemma steps_lift {A} (Rw : relation world) (Rs : relation state)
    (m : M world A) :
  (forall s w, Rw (env s) w -> Rs s (mkState (self s) w)) ->
  steps Rw m -> steps Rs (lift m).
Proof.
  intros Hl Hm s. unfold lift. specialize (Hm (env s)).
  destruct (m (env s)) as [r w]. simpl in *. apply Hl, Hm.
Qed.

Create HintDb steps.
#[global] Hint Resolve steps_ret steps_raise steps_gets steps_bytearray
  steps_int_of_float steps_math_floor : steps.

(** ** C1: the checksum of every outbound packet *)

#[global] Instance grows_by_preorder P : PreOrder (grows_by P).
Proof.
  split.
  - intros w. exists []. split; [by rewrite app_nil_r | constructor].
  - intros a b c (n1 & E1 & F1) (n2 & E2 & F2). exists (n1 ++ n2). split.
    + by rewrite E2, E1, app_assoc.
    + by apply Forall_app.
Qed.

#[global] Instance grows_by_st_preorder P : PreOrder (grows_by_st P).
Proof.
  split.
  - intros s. split; reflexivity.
  - intros a b c [H1 H1'] [H2 H2']. split; [by etransitivity | congruence].
Qed.

Lemma grows_by_print P msg w : grows_by P w (print_line msg w).
Proof. exists []. split; [by rewrite app_nil_r | constructor]. Qed.

Lemma grows_by_log P e f w : grows_by P w (log_line e f w).
Proof. exists []. split; [by rewrite app_nil_r | constructor]. Qed.

Lemma grows_by_st_lift P s w :
  grows_by P (env s) w -> grows_by_st P s (mkState (self s) w).
Proof. intros H. split; [exact H | reflexivity]. Qed.

Lemma set_last_snoc (l : list Z) (v : Z) :
  l <> [] -> <[pred (length l) := v]> l = removelast l ++ [v].
Proof.
  intros Hl. destruct (exists_last Hl) as (r & x & ->).
  rewrite removelast_last, length_app. simpl.
  replace (pred (length r + 1)) with (length r + 0)%nat by lia.
  by rewrite insert_app_r.
Qed.

Lemma slice_to_last_snoc (i : nat) (r : list Z) (x : Z) :
  slice_to_last i (r ++ [x]) = drop i r.
Proof.
  unfold slice_to_last. destruct (decide (i <= length r)%nat) as [Hi|Hi].
  - rewrite drop_app_le by done. by rewrite removelast_last.
  - rewrite drop_ge by (rewrite length_app; simpl; lia).
    rewrite drop_ge by lia. done.
Qed.

Lemma check_sum_set_last (l : list Z) (v : Z) :
  l <> [] ->
  Dynamixel.__check_sum (<[pred (length l) := v]> l)
  = Dynamixel.__check_sum l.
Proof.
  intros Hl. rewrite set_last_snoc by done.
  destruct (exists_last Hl) as (r & x & ->).
  unfold Dynamixel.__check_sum.
  by rewrite removelast_last, !slice_to_last_snoc.
Qed.

(** What [pkt[-1] = __check_sum(pkt)] leaves in the packet obeys the wire
    rule. *)
Lemma checksum_ok_set_last (l : list Z) :
  l <> [] ->
  checksum_ok (<[pred (length l) := Dynamixel.__check_sum l]> l).
Proof.
  intros Hl. unfold checksum_ok. rewrite set_last_snoc by done.
  destruct (exists_last Hl) as (r & x & ->).
  rewrite removelast_last, last_snoc. unfold Dynamixel.__check_sum.
  change (removelast (drop 2 (r ++ [?c]))) with (slice_to_last 2 (r ++ [c])).
  by rewrite !slice_to_last_snoc.
Qed.

Lemma grows_by_serial_write P (data : list Z) :
  P data -> steps (grows_by P) (serial_write data).
Proof.
  intros HP w. exists [data]. split; [done | by constructor].
Qed.

Lemma grows_by_serial_read P (n : Z) : steps (grows_by P) (serial_read n).
Proof.
  intros w. exists []. split; [by rewrite app_nil_r | constructor].
Qed.

(** Checksum, conversion to bytes and write, as [__send_packet],
    [_send_sync] and [ping] do them: whatever reaches the writer obeys
    the wire rule. *)
Lemma steps_checksum_write {S A} (R : relation S) `{!PreOrder R}
    (writer : list Z -> M S Z) (pkt : list Z) (k : Z -> M S A) :
  (forall p, checksum_ok p -> steps R (writer p)) ->
  (forall n, steps R (k n)) ->
  steps R
    (let* pkt := set_last pkt (Dynamixel.__check_sum pkt) in
     let* bytes := bytearray pkt in
     let* n := writer bytes in k n).
Proof.
  intros Hw Hk. destruct pkt as [|b pkt].
  - change (steps R (raise (A:=A) IndexError)). by apply steps_raise.
  - set (p := <[pred (length (b :: pkt)) := Dynamixel.__check_sum (b :: pkt)]>
                (b :: pkt)).
    assert (Hp : checksum_ok p) by (by apply checksum_ok_set_last).
    change (steps R (let* bytes := bytearray p in
                     let* n := writer bytes in k n)).
    unfold bytearray. destruct (forallb is_byte p).
    + change (steps R (let* n := writer p in k n)).
      apply steps_bind; [done | by apply Hw | done].
    + change (steps R (raise (A:=A) ValueError)). by apply steps_raise.
Qed.

Lemma grows_by_construct P e f : steps (grows_by P) (construct e f).
Proof.
  destruct e; simpl;
    try (apply steps_ret, _); try (apply steps_raise, _);
    (apply steps_bind; [apply _ | | intros; apply steps_ret, _]);
    apply steps_modify, grows_by_log.
Qed.

Lemma grows_by_raise_new {A} P e f :
  steps (grows_by P) (raise_new (A:=A) e f).
Proof.
  apply steps_bind; [apply _ | apply grows_by_construct |].
  intros; apply steps_raise, _.
Qed.

Lemma grows_by_scan_bits P bits c :
  steps (grows_by P) (Dynamixel.scan_bits bits c).
Proof.
  revert c. induction bits as [|[[|]|] bits IH]; intros c; simpl.
  - apply steps_ret, _.
  - destruct (Dynamixel.err_lst !! c);
      [apply grows_by_raise_new | apply steps_raise, _].
  - apply IH.
  - apply steps_raise, _.
Qed.

Lemma grows_by_log_excep P e : steps (grows_by P) (Dynamixel.__log_excep e).
Proof.
  apply steps_decorator; [apply _ | intros; apply grows_by_print |].
  unfold Dynamixel.__log_excep_body. destruct (e =? 0).
  - apply steps_ret, _.
  - apply grows_by_scan_bits.
Qed.

Lemma grows_by_st_set_err P (e : Z) :
  steps (grows_by_st P) (modify (set_err e)).
Proof. apply steps_modify. intros s. split; reflexivity. Qed.

Lemma grows_by_read_status_pkt P n :
  steps (grows_by_st P) (Dynamixel.__read_status_pkt n).
Proof.
  unfold Dynamixel.__read_status_pkt.
  apply steps_bind; [apply _ | |].
  { eapply steps_lift; [apply grows_by_st_lift | apply grows_by_serial_read]. }
  intros status. apply steps_bind; [apply _ | |].
  { destruct (_ >=? _); [| apply steps_ret, _].
    destruct (status !! 4%nat); [| apply steps_raise, _].
    apply grows_by_st_set_err. }
  intros _. apply steps_bind; [apply _ | apply steps_gets, _ |].
  intros e. apply steps_bind; [apply _ | | intros; apply steps_ret, _].
  eapply steps_lift; [apply grows_by_st_lift | apply grows_by_log_excep].
Qed.

Lemma grows_by_lift_write p :
  checksum_ok p -> steps (grows_by_st checksum_ok) (lift (serial_write p)).
Proof.
  intros Hp. eapply steps_lift; [apply grows_by_st_lift |].
  by apply grows_by_serial_write.
Qed.

Lemma grows_by_send_packet pkt read_pkt :
  steps (grows_by_st checksum_ok) (Dynamixel.__send_packet pkt read_pkt).
Proof.
  unfold Dynamixel.__send_packet.
  apply steps_checksum_write; [apply _ | apply grows_by_lift_write |].
  intros n. apply steps_bind; [apply _ | apply steps_gets, _ |].
  intros level. destruct (_ && _); [| apply steps_ret, _].
  apply steps_bind; [apply _ | apply grows_by_read_status_pkt |].
  intros; apply steps_ret, _.
Qed.

Lemma grows_by_write_read_data_pkt register n_byte :
  steps (grows_by_st checksum_ok)
    (Dynamixel.__write_read_data_pkt register n_byte).
Proof.
  apply steps_bind; [apply _ | apply steps_gets, _ |].
  intros i. apply grows_by_send_packet.
Qed.

Lemma grows_by_request_n_byte register dt_len :
  steps (grows_by_st checksum_ok) (Dynamixel._request_n_byte register dt_len).
Proof.
  apply steps_bind; [apply _ | apply grows_by_write_read_data_pkt |].
  intros _. apply steps_bind; [apply _ | apply grows_by_read_status_pkt |].
  intros; apply steps_ret, _.
Qed.

Lemma grows_by_write_n_byte_pkt register data trigger return_status :
  steps (grows_by_st checksum_ok)
    (Dynamixel._write_n_byte_pkt register data trigger return_status).
Proof.
  apply steps_bind; [apply _ | apply steps_gets, _ |].
  intros i. apply grows_by_send_packet.
Qed.

Lemma grows_by_write_n_word_pkt register data trigger :
  steps (grows_by_st checksum_ok)
    (Dynamixel._write_n_word_pkt register data trigger).
Proof. apply grows_by_write_n_byte_pkt. Qed.

Lemma grows_by_action :
  steps (grows_by_st checksum_ok) Dynamixel.action.
Proof.
  apply steps_bind; [apply _ | apply steps_gets, _ |].
  intros i. apply grows_by_send_packet.
Qed.

Lemma grows_by_action_all :
  steps (grows_by checksum_ok) Dynamixel.action_all.
Proof. apply steps_raise, _. Qed.

Lemma grows_by_ping id_ : steps (grows_by checksum_ok) (Dynamixel.ping id_).
Proof.
  unfold Dynamixel.ping.
  apply steps_checksum_write;
    [apply _ | intros; by apply grows_by_serial_write |].
  intros; apply grows_by_serial_read.
Qed.

Lemma grows_by_send_sync pkt :
  steps (grows_by checksum_ok) (Dynamixel._send_sync pkt).
Proof.
  unfold Dynamixel._send_sync.
  apply steps_checksum_write;
    [apply _ | intros; by apply grows_by_serial_write |].
  intros; apply steps_ret, _.
Qed.

Lemma grows_by_collect P packet id_lst data_lst :
  steps (grows_by P) (Dynamixel.collect packet id_lst data_lst).
Proof.
  revert id_lst data_lst.
  induction packet as [|data rest IH]; intros id_lst data_lst; simpl.
  - apply steps_ret, _.
  - destruct (negb _); [apply grows_by_raise_new | apply IH].
Qed.

Lemma grows_by_sync_write mem_address packet :
  steps (grows_by checksum_ok) (Dynamixel._sync_write mem_address packet).
Proof.
  apply steps_decorator; [apply _ | intros; apply grows_by_print |].
  unfold Dynamixel._sync_write_body.
  apply steps_bind; [apply _ | apply grows_by_collect |].
  intros [id_lst data_lst].
  apply steps_bind; [apply _ | |].
  { unfold Dynamixel.true_div.
    destruct (_ =? 0); [apply steps_raise, _ | apply steps_ret, _]. }
  intros q. apply steps_bind; [apply _ | apply steps_int_of_float, _ |].
  intros data_length.
  apply steps_bind; [apply _ | apply grows_by_send_sync |].
  intros; apply steps_ret, _.
Qed.

(** C1. Whatever operation of the driver puts packets on the serial line
    (ping, action on one servo or on all, register read, byte and word
    write, sync-write), from whatever state and whether it then returns
    or fails, every byte string it hands to the line ends in the byte
    [(~sum(pkt[2:-1])) & 0xFF] computed over that same string. *)
Theorem outbound_checksum (i : instruction) (s : state) :
  exists new : list (list Z),
    sent (env (snd (transmit i s))) = sent (env s) ++ new
    /\ Forall (fun pkt =>
         last pkt
         = Some (Z.land (Z.lnot (sum (removelast (drop 2 pkt)))) 0xFF)) new.
Proof.
  cut (steps (grows_by_st checksum_ok) (transmit i)).
  { intros H. exact (proj1 (H s)). }
  destruct i; simpl.
  - apply steps_bind; [apply _ | | intros; apply steps_ret, _].
    eapply steps_lift; [apply grows_by_st_lift | apply grows_by_ping].
  - apply grows_by_action.
  - eapply steps_lift; [apply grows_by_st_lift | apply grows_by_action_all].
  - apply steps_bind; [apply _ | | intros; apply steps_ret, _].
    apply grows_by_request_n_byte.
  - apply grows_by_write_n_byte_pkt.
  - apply grows_by_write_n_word_pkt.
  - apply steps_bind; [apply _ | | intros; apply steps_ret, _].
    eapply steps_lift; [apply grows_by_st_lift | apply grows_by_sync_write].
Qed.

(** ** C2: decoding the error byte *)

Lemma scan_bits_digits (p : positive) (rest : list (option bool)) (c : nat) :
  Dynamixel.scan_bits (Dynamixel.digits_lsb p ++ rest) c
  = outcome_at (c + ctz p).
Proof.
  revert c. induction p as [q IH|q IH|]; intros c; simpl.
  - by rewrite Nat.add_0_r.
  - rewrite IH. f_equal. lia.
  - by rewrite Nat.add_0_r.
Qed.

Lemma ctz_lowest (p : positive) : lowest_set_bit (Zpos p) (ctz p).
Proof.
  induction p as [q IH|q [IH1 IH2]|]; simpl.
  - split; [done | intros; lia].
  - split.
    + rewrite Nat2Z.inj_succ, Pos2Z.inj_xO.
      rewrite Z.testbit_even_succ by lia. exact IH1.
    + intros [|j] Hj; [done |].
      rewrite Nat2Z.inj_succ, Pos2Z.inj_xO.
      rewrite Z.testbit_even_succ by lia. apply IH2. lia.
  - split; [done | intros; lia].
Qed.

Lemma lowest_set_bit_unique (err : Z) (j k : nat) :
  lowest_set_bit err j -> lowest_set_bit err k -> j = k.
Proof.
  intros [Hj Hj'] [Hk Hk'].
  destruct (Nat.lt_trichotomy j k) as [H|[H|H]]; [| done |].
  - rewrite (Hk' j H) in Hj. done.
  - rewrite (Hj' k H) in Hk. done.
Qed.

Lemma decorated_surfaces_nothing {S} `{Console S} (m : M S value) (s : S) :
  surfaced (decorator_error_handling m s) = None.
Proof.
  unfold surfaced, decorator_error_handling.
  by destruct (m s) as [[v|e] s'].
Qed.

Lemma log_excep_zero (w : world) : Dynamixel.__log_excep 0 w = (Ok VTrue, w).
Proof. reflexivity. Qed.

Lemma log_excep_lowest (err : Z) (w : world) (k : nat) (cls : exn) :
  0 <= err -> lowest_set_bit err k -> Dynamixel.err_lst !! k = Some cls ->
  Dynamixel.__log_excep err w
  = (Ok VNone, caught (log_line cls "__log_excep" w)).
Proof.
  intros Hpos Hk Hcls. destruct err as [|p|p]; [| | lia].
  - destruct Hk as [Hk _]. by rewrite Z.testbit_0_l in Hk.
  - rewrite (lowest_set_bit_unique _ _ _ Hk (ctz_lowest p)) in Hcls.
    unfold Dynamixel.__log_excep, decorator_error_handling,
      Dynamixel.__log_excep_body.
    simpl (_ =? _). cbv iota.
    unfold Dynamixel.reversed_bits, Dynamixel.zfill_reversed.
    rewrite scan_bits_digits. unfold outcome_at. simpl. rewrite Hcls.
    clear Hk. revert Hcls. generalize (ctz p) as n. intros n Hcls.
    do 7 (destruct n as [|n]; [inversion Hcls; subst; reflexivity |]).
    inversion Hcls.
Qed.

(** The spec's example byte: bit 2 (overheating) is set in [0b00000101],
    yet decoding it hands no fault to the caller and the overheating
    fault is not even logged. *)
Lemma overheating_not_decoded_0b101 :
  In OverheatingError (faults_of_byte 5)
  /\ surfaced (Dynamixel.__log_excep 5 quiet_world) = None
  /\ ~ In OverheatingError
         (fst <$> debug_log (snd (Dynamixel.__log_excep 5 quiet_world))).
Proof.
  split; [right; left; reflexivity |]. split; [reflexivity |].
  vm_compute. intros [H|[]]. discriminate H.
Qed.

(** C2 (amended). Decoding a status error byte never hands a fault to the
    caller: the decorator around [__log_excep] catches what the loop
    raises. A zero byte returns [True] and leaves no trace. For a nonzero
    byte whose lowest set bit is among bits 0 to 6, the fault of that bit
    (input-voltage, angle-limit, overheating, range, checksum, overload,
    instruction, in bit order) is written to the debug log, the two
    lines of the decorator are printed and the call returns [None]. *)
Theorem log_excep_decoding (err : Z) (w : world) :
  0 <= err < 256 ->
  surfaced (Dynamixel.__log_excep err w) = None
  /\ (err = 0 -> Dynamixel.__log_excep err w = (Ok VTrue, w))
  /\ (forall (k : nat) (cls : exn),
        lowest_set_bit err k -> Dynamixel.err_lst !! k = Some cls ->
        Dynamixel.__log_excep err w
        = (Ok VNone, caught (log_line cls "__log_excep" w))).
Proof.
  intros [Hlo _]. split; [apply decorated_surfaces_nothing |].
  split; [intros ->; apply log_excep_zero |].
  intros k cls Hk Hcls. by apply log_excep_lowest with (k := k).
Qed.

Lemma log_excep_decoding_witness :
  Dynamixel.__log_excep 5 quiet_world
  = (Ok VNone, caught (log_line InputVoltageError "__log_excep" quiet_world)).
Proof.
  refine (proj2 (proj2 (log_excep_decoding 5 quiet_world _)) 0%nat _ _ _).
  - lia.
  - split; [reflexivity | intros j Hj; lia].
  - reflexivity.
Defined.

(** ** The status read, exactly *)

Lemma decorated_ok {S} `{Console S} (m : M S value) (s : S) :
  exists v, fst (decorator_error_handling m s) = Ok v.
Proof.
  unfold decorator_error_handling. destruct (m s) as [[v|e] s'].
  - by exists v.
  - by exists VNone.
Qed.

Lemma lookup_4_of_six (raw : list Z) :
  (Z.of_nat (length raw) >=? 6) = true -> is_Some (raw !! 4%nat).
Proof.
  intros H. apply lookup_lt_is_Some. apply Z.geb_le in H. lia.
Qed.

(** [__read_status_pkt] always returns the bytes it obtained, whatever
    they are; it stores byte 4 of a reply of six bytes or more, and runs
    the decoder on the stored value. *)
Lemma read_status_pkt_spec (n : Z) (s : state) :
  let raw := received n (env s) in
  let e := err_after raw (self s) in
  Dynamixel.__read_status_pkt n s
  = (Ok raw,
     mkState (self (set_err e s))
             (snd (Dynamixel.__log_excep e (after_read n (env s))))).
Proof.
  intros raw e. unfold Dynamixel.__read_status_pkt.
  unfold bind at 1. unfold lift at 1, serial_read.
  change ((let* p := gets port in _) (env s))
    with (Ok raw, after_read n (env s)).
  cbv beta iota. fold raw.
  unfold bind at 1.
  assert (Hset :
    (if Z.of_nat (length raw) >=? Dynamixel.__STATUS_PACKET_BASE_LENGTH
     then match raw !! 4%nat with
          | Some e0 => modify (set_err e0)
          | None => raise IndexError
          end
     else ret ()) (mkState (self s) (after_read n (env s)))
    = (Ok tt, mkState (self (set_err e s)) (after_read n (env s)))).
  { subst e. unfold err_after, Dynamixel.__STATUS_PACKET_BASE_LENGTH.
    destruct (Z.of_nat (length raw) >=? 6) eqn:Hlen.
    - destruct (lookup_4_of_six raw Hlen) as [x Hx]. rewrite Hx. reflexivity.
    - destruct s as [[] ?]; reflexivity. }
  rewrite Hset. cbv beta iota.
  unfold bind at 1, gets at 1. cbv beta iota.
  change (err (self (mkState (self (set_err e s)) (after_read n (env s)))))
    with e.
  unfold bind at 1, lift at 1. cbv beta iota.
  change (env (mkState (self (set_err e s)) (after_read n (env s))))
    with (after_read n (env s)).
  destruct (decorated_ok (Dynamixel.__log_excep_body e)
              (after_read n (env s))) as [v Hv].
  fold (Dynamixel.__log_excep e) in Hv.
  destruct (Dynamixel.__log_excep e (after_read n (env s))) as [r w'].
  simpl in Hv. subst r. reflexivity.
Qed.

(** ** C3: what becomes of a detected fault *)

#[global] Instance same_port_preorder : PreOrder same_port.
Proof.
  split; [intros w; reflexivity |].
  intros a b c H1 H2. unfold same_port in *. congruence.
Qed.

Lemma same_port_raise_new {A} e f : steps same_port (raise_new (A:=A) e f).
Proof.
  apply steps_bind; [apply _ | | intros; apply steps_raise, _].
  destruct e; simpl;
    try (apply steps_ret, _); try (apply steps_raise, _);
    (apply steps_bind; [apply _ | | intros; apply steps_ret, _]);
    apply steps_modify; intros w; reflexivity.
Qed.

Lemma same_port_log_excep e : steps same_port (Dynamixel.__log_excep e).
Proof.
  apply steps_decorator; [apply _ | intros msg w; reflexivity |].
  unfold Dynamixel.__log_excep_body. destruct (e =? 0);
    [apply steps_ret, _ |].
  generalize (Dynamixel.reversed_bits e) 0%nat.
  intros bits. induction bits as [|[[|]|] bits IH]; intros c; simpl.
  - apply steps_ret, _.
  - destruct (Dynamixel.err_lst !! c);
      [apply same_port_raise_new | apply steps_raise, _].
  - apply IH.
  - apply steps_raise, _.
Qed.

Lemma same_port_collect packet id_lst data_lst :
  steps same_port (Dynamixel.collect packet id_lst data_lst).
Proof.
  revert id_lst data_lst.
  induction packet as [|data rest IH]; intros id_lst data_lst; simpl.
  - apply steps_ret, _.
  - destruct (negb _); [apply same_port_raise_new | apply IH].
Qed.

Lemma send_sync_once (pkt : list Z) (w : world) :
  port (snd (Dynamixel._send_sync pkt w)) = port w
  \/ exists data, port (snd (Dynamixel._send_sync pkt w))
                  = port (after_write data w).
Proof.
  destruct pkt as [|b pkt]; [by left |].
  set (p := <[pred (length (b :: pkt)) := Dynamixel.__check_sum (b :: pkt)]>
              (b :: pkt)).
  change (Dynamixel._send_sync (b :: pkt) w)
    with ((let* bytes := bytearray p in run serial_write bytes in ret tt) w).
  unfold bytearray. destruct (forallb is_byte p).
  - right. exists p. reflexivity.
  - by left.
Qed.

Lemma bind_eq {S A B} (m : M S A) (k : A -> M S B) (s : S) :
  bind m k s = match m s with
               | (Ok a, s') => k a s'
               | (Raise e, s') => (Raise e, s')
               end.
Proof. reflexivity. Qed.

Lemma int_of_float_state {S} (x : float) (s : S) :
  snd (int_of_float x s) = s.
Proof. unfold int_of_float. by destruct (FloatOps.Prim2SF x). Qed.

Lemma sync_write_body_once mem_address packet (w : world) :
  let w' := snd (Dynamixel._sync_write_body mem_address packet w) in
  port w' = port w \/ exists data, port w' = port (after_write data w).
Proof.
  intros w'. subst w'. unfold Dynamixel._sync_write_body. rewrite bind_eq.
  pose proof (same_port_collect packet [] [] w) as Hc.
  destruct (Dynamixel.collect packet [] [] w) as [[[ids ds]|e] w1];
    simpl in Hc; [| by left].
  cbv beta iota. rewrite bind_eq. unfold Dynamixel.true_div.
  destruct (Z.of_nat (length ids) =? 0); [by left |].
  cbv beta iota delta [ret]. rewrite bind_eq.
  match goal with |- context [int_of_float ?x w1] =>
    pose proof (int_of_float_state x w1) as Hi;
    destruct (int_of_float x w1) as [[n|e] w2]
  end; simpl in Hi; subst w2; [| by left].
  cbv beta iota. rewrite bind_eq.
  match goal with |- context [Dynamixel._send_sync ?p w1] =>
    destruct (send_sync_once p w1) as [H|[data H]];
    destruct (Dynamixel._send_sync p w1) as [[[]|e] w3]
  end; cbv beta iota; simpl in *.
  - left. congruence.
  - left. congruence.
  - right. exists data. rewrite H. unfold after_write, set_port. simpl.
    by rewrite Hc.
  - right. exists data. rewrite H. unfold after_write, set_port. simpl.
    by rewrite Hc.
Qed.

Lemma decorator_port (m : M world value) (w : world) :
  port (snd (decorator_error_handling m w)) = port (snd (m w)).
Proof.
  unfold decorator_error_handling. by destruct (m w) as [[v|e] w'].
Qed.

(** A sync-write batch with two values for one servo and three for the
    other. The loop detects the mismatch, yet the caller is handed the
    very result of a successful sync-write: a normal return of [None]. *)
Lemma detected_fault_not_surfaced :
  surfaced (Dynamixel._sync_write_body 30 [(1, [10; 20]); (2, [1; 2; 3])]
              quiet_world) = Some AttributeError
  /\ fst (Dynamixel._sync_write 30 [(1, [10; 20]); (2, [1; 2; 3])]
            quiet_world) = Ok VNone
  /\ fst (Dynamixel._sync_write 30 [(1, [10; 20]); (2, [1; 2])]
            quiet_world) = Ok VNone
  /\ fst (Dynamixel.__read_status_pkt 6
            (mkState (default_joint 1 false)
                     (world_with [[255; 255; 1; 2; 4; 248]])))
     = Ok [255; 255; 1; 2; 4; 248].
Proof. repeat split; vm_compute; reflexivity. Qed.

(** C3 (amended). No fault is retried: a status read asks the line once
    and a sync-write hands it at most one packet. But the faults the
    core detects do not reach the immediate caller: the error decoder,
    the status read that calls it, the sync-write and both joint setters
    return normally in every case, the decorator having caught whatever
    was raised inside them. *)
Theorem faults_caught_not_raised :
  (forall err w, surfaced (Dynamixel.__log_excep err w) = None)
  /\ (forall n s,
        let r := Dynamixel.__read_status_pkt n s in
        surfaced r = None
        /\ requested (port (env (snd r))) = requested (port (env s)) ++ [n]
        /\ sent (env (snd r)) = sent (env s))
  /\ (forall mem_address packet w,
        let r := Dynamixel._sync_write mem_address packet w in
        surfaced r = None
        /\ requested (port (snd r)) = requested (port w)
        /\ (sent (snd r) = sent w
            \/ exists pkt, sent (snd r) = sent w ++ [pkt]))
  /\ (forall angle trigger s,
        surfaced (JointDrive.set_goal_position angle trigger s) = None)
  /\ (forall angle speed trigger s,
        surfaced (JointDrive.set_desired_angle_speed angle speed trigger s)
        = None).
Proof.
  split; [intros; apply decorated_surfaces_nothing |].
  split.
  { intros n s r. subst r. rewrite read_status_pkt_spec. simpl.
    split; [reflexivity |].
    pose proof (same_port_log_excep
                  (err_after (received n (env s)) (self s))
                  (after_read n (env s))) as Hp.
    unfold same_port in Hp. unfold sent. rewrite Hp. by split. }
  split.
  { intros mem_address packet w r. subst r.
    split; [apply decorated_surfaces_nothing |].
    unfold sent, Dynamixel._sync_write. rewrite decorator_port.
    destruct (sync_write_body_once mem_address packet w) as [H|[data H]];
      rewrite H; [by split; [| left] |].
    split; [reflexivity | right; by exists data]. }
  split; intros; apply decorated_surfaces_nothing.
Qed.

(** ** C4: what the status read checks *)

(** A reply with a wrong header, a wrong length field and a wrong
    trailing byte is returned like any other; so is a well-formed reply
    in which one payload byte was changed ([20] into [21]), whose payload
    the register read hands on. *)
Lemma malformed_status_accepted :
  well_formed_status [0; 0; 1; 9; 0; 7] = false
  /\ fst (Dynamixel.__read_status_pkt 6
            (mkState (default_joint 1 false)
                     (world_with [[0; 0; 1; 9; 0; 7]])))
     = Ok [0; 0; 1; 9; 0; 7]
  /\ well_formed_status [255; 255; 1; 3; 0; 20; 231] = true
  /\ well_formed_status [255; 255; 1; 3; 0; 21; 231] = false
  /\ fst (Dynamixel._request_n_byte 0x2B 1
            (mkState (default_joint 1 false)
                     (world_with [[255; 255; 1; 3; 0; 21; 231]])))
     = Ok [21].
Proof. repeat split; vm_compute; reflexivity. Qed.

(** C4 (amended). Reading a status packet validates nothing. Whatever
    bytes the line delivers, with any header, any length field and any
    trailing byte, are returned to the caller as they came, and no frame
    error is produced. Only the number of bytes and byte 4 are looked
    at: byte 4 of a reply of six bytes or more becomes the stored error. *)
Theorem status_read_does_not_validate (n : Z) (s : state) :
  let r := Dynamixel.__read_status_pkt n s in
  fst r = Ok (received n (env s))
  /\ surfaced r = None
  /\ err (self (snd r)) = err_after (received n (env s)) (self s).
Proof.
  intros r. subst r. rewrite read_status_pkt_spec. by repeat split.
Qed.

(** ** C5: the register read *)

Lemma is_byte_land_255 (x : Z) : is_byte (Z.land x 0xFF) = true.
Proof.
  change 0xFF with (Z.ones 8). rewrite Z.land_ones by lia.
  unfold is_byte. pose proof (Z.mod_pos_bound x (2 ^ 8) ltac:(lia)).
  apply andb_true_intro. split; [apply Z.leb_le | apply Z.ltb_lt]; lia.
Qed.

(** [__send_packet(pkt, True)]: the packet gets its checksum and goes to
    the line; no status packet is read, whatever the return level. *)
Lemma send_packet_no_read (b : Z) (pkt : list Z) (s : state) :
  let p := <[pred (length (b :: pkt)) := Dynamixel.__check_sum (b :: pkt)]>
             (b :: pkt) in
  forallb is_byte p = true ->
  Dynamixel.__send_packet (b :: pkt) true s
  = (Ok tt, mkState (self s) (after_write p (env s))).
Proof.
  intros p Hp.
  change (Dynamixel.__send_packet (b :: pkt) true s)
    with ((let* bytes := bytearray p in
           let* num_bytes := lift (serial_write bytes) in
           let* level := gets (fun s => return_level (self s)) in
           if (level =? 2) && negb true
           then run Dynamixel.__read_status_pkt 6 in ret tt
           else ret tt) s).
  unfold bytearray. rewrite Hp.
  change ((if (return_level (self s) =? 2) && false
           then run Dynamixel.__read_status_pkt 6 in ret tt
           else ret tt) (mkState (self s) (after_write p (env s)))
          = (Ok tt, mkState (self s) (after_write p (env s)))).
  by rewrite andb_false_r.
Qed.

Lemma log_excep_port (e : Z) (w : world) :
  port (snd (Dynamixel.__log_excep e w)) = port w.
Proof. exact (same_port_log_excep e w). Qed.

(** C5. A register read, for a servo id, a register address and a byte
    count that each fit a byte: the read-data packet for that register
    and count goes to the line; then, whatever the return level of the
    session, one read of [6 + count] bytes is made; the error byte of the
    status packet is stored and run through the decoder; and the call
    returns the status packet from index 5 up to, not including, its last
    byte, which for a packet [FF FF id len err params... checksum] is
    exactly [params]. *)
Theorem request_n_byte_transaction (register count : Z) (s : state) :
  is_byte (id (self s)) = true ->
  is_byte register = true ->
  is_byte count = true ->
  let request :=
    [255; 255; id (self s); 4; 2; register; count;
     Z.land (Z.lnot (sum [id (self s); 4; 2; register; count])) 0xFF] in
  let raw := received (6 + count) (env s) in
  let r := Dynamixel._request_n_byte register count s in
  fst r = Ok (removelast (drop 5 raw))
  /\ sent (env (snd r)) = sent (env s) ++ [request]
  /\ requested (port (env (snd r)))
     = requested (port (env s)) ++ [6 + count]
  /\ err (self (snd r)) = err_after raw (self s)
  /\ env (snd r)
     = snd (Dynamixel.__log_excep (err_after raw (self s))
              (after_read (6 + count) (after_write request (env s))))
  /\ (forall i l e params ck,
        raw = [255; 255; i; l; e] ++ params ++ [ck] ->
        fst r = Ok params /\ err (self (snd r)) = e).
Proof.
  intros Hid Hreg Hcount request raw r.
  assert (Hr : r = (Ok (removelast (drop 5 raw)),
                    mkState (self (set_err (err_after raw (self s)) s))
                      (snd (Dynamixel.__log_excep (err_after raw (self s))
                              (after_read (6 + count)
                                 (after_write request (env s))))))).
  { subst r. unfold Dynamixel._request_n_byte. rewrite bind_eq.
    unfold Dynamixel.__write_read_data_pkt. rewrite bind_eq.
    cbv beta iota delta [gets].
    change (<[6%nat:=count]> (<[5%nat:=register]>
              (<[2%nat:=id (self s)]> Dynamixel.__pkt_read_data)))
      with (255 :: [255; id (self s); 4; 2; register; count; 0]).
    rewrite send_packet_no_read.
    2: { change (forallb is_byte request = true). subst request. simpl.
         rewrite Hid, Hreg, Hcount, is_byte_land_255. reflexivity. }
    cbv beta iota. rewrite bind_eq, read_status_pkt_spec.
    reflexivity. }
  rewrite Hr. simpl fst. simpl snd.
  split; [reflexivity |]. split.
  { cbn [env]. unfold sent. rewrite log_excep_port. reflexivity. }
  split.
  { cbn [env]. rewrite log_excep_port. reflexivity. }
  split; [reflexivity |]. split; [reflexivity |].
  intros i l e params ck Hraw. rewrite Hraw. split.
  - f_equal. change (removelast (params ++ [ck]) = params).
    apply removelast_last.
  - cbn [self set_err err]. unfold err_after.
    rewrite length_app, length_app. simpl.
    destruct (_ >=? 6) eqn:Hlen; [reflexivity |].
    rewrite Z.geb_leb in Hlen. apply Z.leb_gt in Hlen. lia.
Qed.

Lemma request_n_byte_transaction_witness :
  fst (Dynamixel._request_n_byte 0x2B 1
         (mkState (default_joint 1 false)
                  (world_with [[255; 255; 1; 3; 0; 20; 231]])))
  = Ok [20].
Proof.
  refine (proj1 (proj2 (proj2 (proj2 (proj2 (proj2
    (request_n_byte_transaction 0x2B 1
       (mkState (default_joint 1 false)
                (world_with [[255; 255; 1; 3; 0; 20; 231]])) _ _ _)))))
    1 3 0 [20] 231 _)); reflexivity.
Defined.

(** ** C6: a sync-write batch with value lists of different lengths *)

Lemma raise_packet_type_error {A} (f : string) (w : world) :
  raise_new (A:=A) PacketTypeError f w = (Raise AttributeError, w).
Proof. reflexivity. Qed.

(** The first loop of [_sync_write], started after the entries [pre]. *)
Lemma collect_fires (rest pre : list Dynamixel.sync_entry) (w : world) :
  Dynamixel.collect rest (fst <$> pre) (concat (snd <$> pre)) w
  = if existsb (counts_mismatch_at (pre ++ rest))
         (seq (Datatypes.S (length pre)) (length rest))
    then (Raise AttributeError, w)
    else (Ok (fst <$> (pre ++ rest), concat (snd <$> (pre ++ rest))), w).
Proof.
  revert pre. induction rest as [|data rest IH]; intros pre.
  - simpl. by rewrite app_nil_r.
  - cbn [Dynamixel.collect length seq existsb].
    assert (Hids : (fst <$> pre) ++ [fst data] = fst <$> (pre ++ [data]))
      by (by rewrite fmap_app).
    assert (Hdata : concat (snd <$> pre) ++ snd data
                    = concat (snd <$> (pre ++ [data]))).
    { rewrite fmap_app, concat_app. simpl. by rewrite app_nil_r. }
    rewrite Hids, Hdata.
    assert (Hat : counts_mismatch_at (pre ++ data :: rest)
                    (Datatypes.S (length pre))
                  = negb (Z.of_nat (length (concat (snd <$> (pre ++ [data]))))
                          mod Z.of_nat (length (fst <$> (pre ++ [data])))
                          =? 0)).
    { unfold counts_mismatch_at.
      replace (take (Datatypes.S (length pre)) (pre ++ data :: rest))
        with (pre ++ [data]).
      - rewrite length_fmap, length_app. simpl.
        by replace (length pre + 1)%nat with (Datatypes.S (length pre)) by lia.
      - rewrite (cons_middle data pre rest), app_assoc.
        rewrite take_app_length'; [done |].
        rewrite length_app. simpl. lia. }
    rewrite Hat.
    destruct (negb _); [apply raise_packet_type_error |].
    cbn [orb]. rewrite (IH (pre ++ [data])).
    rewrite <- app_assoc. simpl.
    replace (length (pre ++ [data])) with (Datatypes.S (length pre))
      by (rewrite length_app; simpl; lia).
    reflexivity.
Qed.

(** The spec's example, in general: a first entry with two values and a
    second with three trip the check. *)
Lemma two_then_three_fires i1 a b i2 c d e rest :
  check_fires ((i1, [a; b]) :: (i2, [c; d; e]) :: rest) = true.
Proof. reflexivity. Qed.

(** C6 (the code at a failing input). A batch with one value for the
    first servo and three for the second: the value lists differ in
    length, yet the test of the loop, which the source comments as the
    check that all data packets are the same length, lets it pass
    ([4 % 2] is zero); no error is raised and a packet built from it is
    written to the transport. *)
Theorem one_then_three_transmitted :
  lengths_differ [(1, [10]); (2, [1; 2; 3])]
  /\ check_fires [(1, [10]); (2, [1; 2; 3])] = false
  /\ Dynamixel._sync_write 30 [(1, [10]); (2, [1; 2; 3])] quiet_world
     = (Ok VNone,
        after_write [255; 255; 254; 14; 131; 30; 4;
                     1; 10; 0; 2; 1; 0; 2; 0; 3; 0; 59] quiet_world).
Proof.
  split.
  - exists (1, [10]), (2, [1; 2; 3]). simpl. repeat split; auto; try lia.
  - split; vm_compute; reflexivity.
Qed.

(** The spec's batch of two values against three: the call does not fail
    with a packet-type error, it returns [None]. *)
Lemma two_then_three_returns_normally :
  lengths_differ [(1, [10; 20]); (2, [1; 2; 3])]
  /\ surfaced (Dynamixel._sync_write 30 [(1, [10; 20]); (2, [1; 2; 3])]
                 quiet_world) = None
  /\ fst (Dynamixel._sync_write 30 [(1, [10; 20]); (2, [1; 2; 3])]
            quiet_world) = Ok VNone.
Proof.
  split.
  - exists (1, [10; 20]), (2, [1; 2; 3]). simpl. repeat split; auto; try lia.
  - split; reflexivity.
Qed.

(** What the code does when the test of the loop fires on a batch (the
    values collected so far are not a multiple of the entries so far, as
    with two values followed by three): nothing is written to the
    transport and nothing is read; the exception raised in the loop (an
    AttributeError, the PacketTypeError class failing in its
    constructor) is caught by the decorator, nothing is logged, and the
    caller gets a normal return of [None]. *)
Lemma sync_write_detected_mismatch (mem_address : Z)
    (packet : list Dynamixel.sync_entry) (w : world) :
  check_fires packet = true ->
  Dynamixel._sync_write_body mem_address packet w = (Raise AttributeError, w)
  /\ Dynamixel._sync_write mem_address packet w = (Ok VNone, caught w)
  /\ sent (snd (Dynamixel._sync_write mem_address packet w)) = sent w
  /\ debug_log (snd (Dynamixel._sync_write mem_address packet w))
     = debug_log w.
Proof.
  intros Hf.
  assert (Hb : Dynamixel._sync_write_body mem_address packet w
               = (Raise AttributeError, w)).
  { unfold Dynamixel._sync_write_body. rewrite bind_eq.
    change (Dynamixel.collect packet [] [] w)
      with (Dynamixel.collect packet
              (fst <$> (@nil Dynamixel.sync_entry))
              (concat (snd <$> (@nil Dynamixel.sync_entry))) w).
    rewrite collect_fires. simpl app. simpl length.
    unfold check_fires in Hf. rewrite Hf. reflexivity. }
  split; [exact Hb |].
  unfold Dynamixel._sync_write, decorator_error_handling. rewrite Hb.
  by repeat split.
Qed.

Lemma sync_write_detected_mismatch_witness :
  Dynamixel._sync_write 30 [(1, [10; 20]); (2, [1; 2; 3])] quiet_world
  = (Ok VNone, caught quiet_world).
Proof.
  refine (proj1 (proj2 (sync_write_detected_mismatch 30
            [(1, [10; 20]); (2, [1; 2; 3])] quiet_world _))).
  reflexivity.
Defined.

(** ** Angle to ticks and back *)

(** With the rotation reversed, converting to ticks subtracts from
    [1023 - 1] and converting back subtracts from [1023]: going there and
    back moves a tick value up by one. *)
Lemma reversed_ticks_shifted (t : Z) (offset : float) :
  JointDrive.__convert_ticks_to_angle (1023 - 1 - t) true offset
  = JointDrive.__convert_ticks_to_angle (t + 1) false offset.
Proof.
  unfold JointDrive.__convert_ticks_to_angle.
  by replace (1023 - (1023 - 1 - t)) with (t + 1) by lia.
Qed.

(** C7 (the code at a failing input). The joint
    [JointDrive(1, ccw=True, a_offset=-JointDrive._ANGLE_RADIAN_ZERO,
                a_min=-0.005)]
    is built without an error, and the angle [-0.0025] lies between its
    [a_min] and [a_max] and passes the limit tests of the setters:
    [set_goal_position] transmits tick 1022 for it. Converting back,
    tick 1022 becomes the angle [0.0051182676011563913]: the round trip
    ends more than 1.48 ticks away from [-0.0025], where the radians of
    one tick are [0.0051182676011563913]. *)
Theorem reversed_round_trip_inside_limits :
  let angle := (-0x1.47ae147ae147bp-9)%float in
  let o := reversed_joint in
  fst (JointDrive.__init__ 1 true (- JointDrive._ANGLE_RADIAN_ZERO)%float
         (300 * (2 * math_pi / 360))%float (-0x1.47ae147ae147bp-8)%float
         quiet_world) = Ok o
  /\ (a_min o <=? angle)%float = true
  /\ (angle <=? a_max o)%float = true
  /\ outside_limits o angle = false
  /\ sent (env (snd (JointDrive.set_goal_position angle false
                       (mkState o quiet_world))))
     = [[255; 255; 1; 5; 4; 30; 1022 mod 256; 1022 / 256; 214]]
  /\ angle_there_and_back (ccw o) (a_offset o) angle
     = Ok (0x1.4f6e47f58a668p-8)%float
  /\ within_one_tick angle
       (angle_there_and_back (ccw o) (a_offset o) angle) = false
  /\ (0x1.7ae147ae147aep+0 * one_tick
      <? abs (0x1.4f6e47f58a668p-8 - angle))%float = true.
Proof. repeat split; vm_compute; reflexivity. Qed.

(** ** C8 and C10: the joint setters and the soft limits *)

Lemma grows_by_st_print P msg (s : state) :
  grows_by_st P s (console (print_line msg) s).
Proof. split; [apply grows_by_print | reflexivity]. Qed.

Lemma grows_by_convert_angle_to_ticks angle ccw offset :
  steps (grows_by_st checksum_ok)
    (JointDrive.__convert_angle_to_ticks angle ccw offset).
Proof.
  apply steps_bind; [apply _ | apply steps_int_of_float, _ |].
  intros; apply steps_ret, _.
Qed.

Lemma grows_by_print_true msg :
  steps (grows_by_st checksum_ok) (run print msg in ret VTrue).
Proof.
  apply steps_bind; [apply _ | | intros; apply steps_ret, _].
  apply steps_modify. intros s. apply grows_by_st_print.
Qed.

Lemma grows_by_set_goal_position angle trigger :
  steps (grows_by_st checksum_ok) (JointDrive.set_goal_position angle trigger).
Proof.
  apply steps_decorator; [apply _ | intros; apply grows_by_st_print |].
  unfold JointDrive.set_goal_position_body.
  apply steps_bind; [apply _ | apply steps_gets, _ |]. intros o.
  destruct (_ <? _)%float; [apply grows_by_print_true |].
  destruct (_ <? _)%float; [apply grows_by_print_true |].
  apply steps_bind; [apply _ | apply grows_by_convert_angle_to_ticks |].
  intros ticks.
  apply steps_bind; [apply _ | | intros; apply steps_ret, _].
  exact (grows_by_write_n_word_pkt ServoAx12a.__GOAL_POSITION [ticks]
           trigger).
Qed.

(** Both setters on an angle outside the soft limits. *)
Lemma refused_outside_limits (angle speed : float) (trigger : bool)
    (s : state) :
  outside_limits (self s) angle = true ->
  let msg := if too_large (self s) angle then "Angle zu groß"
             else "Angle zu klein" in
  JointDrive.set_goal_position angle trigger s
  = (Ok VTrue, console (print_line msg) s)
  /\ JointDrive.set_desired_angle_speed angle speed trigger s
     = (Ok VTrue, console (print_line msg) (set_savedgoalposition angle s)).
Proof.
  intros Hout msg. split.
  - unfold JointDrive.set_goal_position, decorator_error_handling,
      JointDrive.set_goal_position_body.
    rewrite bind_eq. cbv beta iota delta [gets].
    fold (too_large (self s) angle). fold (too_small (self s) angle).
    subst msg. unfold outside_limits in Hout.
    destruct (too_large (self s) angle); [reflexivity |].
    simpl in Hout. rewrite Hout. reflexivity.
  - unfold JointDrive.set_desired_angle_speed, decorator_error_handling,
      JointDrive.set_desired_angle_speed_body.
    rewrite bind_eq. cbv beta iota delta [modify].
    rewrite bind_eq. cbv beta iota delta [gets].
    change (self (set_savedgoalposition angle s))
      with (mkServo (id (self s)) (return_level (self s)) (err (self s))
                    (ccw (self s)) (a_offset (self s)) (a_max (self s))
                    (a_min (self s)) angle).
    cbn [a_max a_min a_offset].
    fold (too_large (self s) angle). fold (too_small (self s) angle).
    subst msg. unfold outside_limits in Hout.
    destruct (too_large (self s) angle); [reflexivity |].
    simpl in Hout. rewrite Hout. reflexivity.
Qed.

(** C8. For every angle strictly outside the soft limits of the joint
    ([angle > a_max - a_offset] or [angle < a_min - a_offset]), both
    angle-bearing setters refuse: no ticks are computed, so nothing is
    clamped; the serial line is left untouched (no packet written, no
    read); the violation is reported to the caller by the return value
    [True] (a setter that goes through returns [None]) and by the
    printed message. *)
Theorem setters_refuse_outside_limits (angle speed : float) (trigger : bool)
    (s : state) :
  outside_limits (self s) angle = true ->
  let msg := if too_large (self s) angle then "Angle zu groß"
             else "Angle zu klein" in
  JointDrive.set_goal_position angle trigger s
  = (Ok VTrue, console (print_line msg) s)
  /\ JointDrive.set_desired_angle_speed angle speed trigger s
     = (Ok VTrue, console (print_line msg) (set_savedgoalposition angle s))
  /\ port (env (snd (JointDrive.set_goal_position angle trigger s)))
     = port (env s)
  /\ port (env (snd (JointDrive.set_desired_angle_speed angle speed
                       trigger s)))
     = port (env s).
Proof.
  intros Hout msg.
  destruct (refused_outside_limits angle speed trigger s Hout) as [H1 H2].
  fold msg in H1, H2. rewrite H1, H2. by repeat split.
Qed.

Lemma setters_refuse_outside_limits_witness :
  JointDrive.set_goal_position 3 true
    (mkState (default_joint 1 false) quiet_world)
  = (Ok VTrue,
     console (print_line "Angle zu groß")
       (mkState (default_joint 1 false) quiet_world)).
Proof.
  refine (proj1 (setters_refuse_outside_limits 3 0 true
                   (mkState (default_joint 1 false) quiet_world) _)).
  reflexivity.
Defined.

(** C10. A call of [set_desired_angle_speed] with an angle outside the
    soft limits is refused and still leaves the requested angle in the
    saved goal position, the assignment coming before the limit checks.
    A call of [set_goal_position] never changes what
    [get_saved_goal_position] returns, whatever the angle and whatever
    the servo answers. *)
Theorem saved_goal_position_updates (angle speed : float) (trigger : bool)
    (s : state) :
  (outside_limits (self s) angle = true ->
   fst (JointDrive.set_desired_angle_speed angle speed trigger s) = Ok VTrue
   /\ fst (JointDrive.get_saved_goal_position
             (snd (JointDrive.set_desired_angle_speed angle speed
                     trigger s)))
      = Ok angle)
  /\ fst (JointDrive.get_saved_goal_position
            (snd (JointDrive.set_goal_position angle trigger s)))
     = fst (JointDrive.get_saved_goal_position s).
Proof.
  split.
  - intros Hout.
    destruct (refused_outside_limits angle speed trigger s Hout) as [_ H2].
    rewrite H2. by split.
  - unfold JointDrive.get_saved_goal_position, gets. cbn [fst]. f_equal.
    exact (proj2 (grows_by_set_goal_position angle trigger s)).
Qed.

Lemma saved_goal_position_updates_witness :
  fst (JointDrive.get_saved_goal_position
         (snd (JointDrive.set_desired_angle_speed 3 50 true
                 (mkState (default_joint 1 false) quiet_world))))
  = Ok 3%float.
Proof.
  refine (proj2 (proj1 (saved_goal_position_updates 3 50 true
                          (mkState (default_joint 1 false) quiet_world)) _)).
  reflexivity.
Defined.

(** ** C9: a status read that obtains fewer than six bytes *)

(** A read that comes back short keeps the stored error and hands the
    bytes to the caller; the decoder is then run on the stored error all
    the same, and when that error has its lowest set bit among bits 0 to
    6 the fault of that bit is raised inside the decoder and logged once
    more. *)
Lemma short_read_decodes_stored_error (n : Z) (s : state) (k : nat)
    (cls : exn) :
  (length (received n (env s)) < 6)%nat ->
  0 <= err (self s) ->
  lowest_set_bit (err (self s)) k ->
  Dynamixel.err_lst !! k = Some cls ->
  let r := Dynamixel.__read_status_pkt n s in
  fst r = Ok (received n (env s))
  /\ err (self (snd r)) = err (self s)
  /\ debug_log (env (snd r))
     = debug_log (env s) ++ [(cls, "__log_excep")].
Proof.
  intros Hshort Hpos Hk Hcls r. subst r. rewrite read_status_pkt_spec.
  assert (He : err_after (received n (env s)) (self s) = err (self s)).
  { unfold err_after. destruct (_ >=? 6) eqn:Hlen; [| reflexivity].
    rewrite Z.geb_leb in Hlen. apply Z.leb_le in Hlen. lia. }
  rewrite He. split; [reflexivity |]. split; [reflexivity |].
  cbn [snd env].
  by rewrite (log_excep_lowest _ _ k cls Hpos Hk Hcls).
Qed.

(** C9 (the code at a failing input). A first status packet carries the
    error byte [0x01]; the next read runs into the timeout and obtains
    nothing. The second exchange returns the empty list and keeps the
    stored error, and it raises the input-voltage fault of the first
    exchange again inside the decoder: the debug log holds it twice and
    the two lines of the decorator are printed a second time. *)
Theorem stale_fault_raised_again :
  let s0 := mkState (default_joint 1 false)
                    (world_with [[255; 255; 1; 2; 1; 251]; []]) in
  let s1 := snd (Dynamixel.__read_status_pkt 6 s0) in
  let r2 := Dynamixel.__read_status_pkt 6 s1 in
  err (self s1) = 1
  /\ fst <$> debug_log (env s1) = [InputVoltageError]
  /\ received 6 (env s1) = []
  /\ fst r2 = Ok []
  /\ err (self (snd r2)) = 1
  /\ fst <$> debug_log (env (snd r2)) = [InputVoltageError; InputVoltageError]
  /\ length (stdout (env (snd r2))) = 4%nat.
Proof. repeat split; vm_compute; reflexivity. Qed.

(** ** The line on small examples *)

Example ping_packet :
  sent (snd (Dynamixel.ping 1 quiet_world)) = [[255; 255; 1; 2; 1; 251]].
Proof. reflexivity. Qed.

(** Spec, section 8: with return level 2, writing the word 512 to the
    goal position puts a nine-byte frame on the line and reads one status
    packet of six bytes. *)
Example write_goal_position_512 :
  let r := ServoAx12a.set_goal_position 512 true
             (mkState (default_joint 2 false)
                      (world_with [[255; 255; 2; 2; 0; 251]])) in
  fst r = Ok tt
  /\ sent (env (snd r)) = [[255; 255; 2; 5; 3; 30; 0; 2; 213]]
  /\ requested (port (env (snd r))) = [6].
Proof. repeat split; vm_compute; reflexivity. Qed.

(* ===================================================================== *)
(** * Further properties of the driver *)

(** ** The checksum *)

Lemma land_lnot_255 (s : Z) : Z.land (Z.lnot s) 0xFF = (- s - 1) mod 256.
Proof.
  change 0xFF with (Z.ones 8). rewrite Z.land_ones by lia.
  unfold Z.lnot. f_equal; lia.
Qed.

(** The bytes from the id to the last parameter and the checksum add up
    to [0xFF] modulo 256: the test a receiver applies to a packet. *)
Lemma check_sum_complements (pkt : list Z) :
  (sum (slice_to_last 2 pkt) + Dynamixel.__check_sum pkt) mod 256 = 255.
Proof.
  unfold Dynamixel.__check_sum. rewrite land_lnot_255.
  rewrite Z.add_mod_idemp_r by lia.
  replace (sum (slice_to_last 2 pkt) + (- sum (slice_to_last 2 pkt) - 1))
    with (-1) by lia.
  reflexivity.
Qed.

Lemma sum_insert (l : list Z) (j : nat) (old new : Z) :
  l !! j = Some old -> sum (<[j := new]> l) = sum l - old + new.
Proof.
  revert j. induction l as [|x l IH]; intros [|j] H; simpl in *;
    try discriminate.
  - inversion H; subst. lia.
  - rewrite (IH j H). lia.
Qed.

Lemma slice_to_last_insert (pkt : list Z) (i : nat) (new : Z) :
  (2 <= i)%nat -> (i < pred (length pkt))%nat ->
  slice_to_last 2 (<[i := new]> pkt)
  = <[(i - 2)%nat := new]> (slice_to_last 2 pkt).
Proof.
  intros H2 Hi. unfold slice_to_last.
  rewrite !removelast_firstn_len, !length_drop, length_insert.
  rewrite drop_insert_ge by lia.
  change firstn with (@take Z). rewrite take_insert_lt by lia. reflexivity.
Qed.

Lemma slice_to_last_lookup (pkt : list Z) (i : nat) (x : Z) :
  (2 <= i)%nat -> (i < pred (length pkt))%nat -> pkt !! i = Some x ->
  slice_to_last 2 pkt !! (i - 2)%nat = Some x.
Proof.
  intros H2 Hi Hx. unfold slice_to_last.
  rewrite removelast_firstn_len, length_drop.
  change firstn with (@take Z). rewrite lookup_take_lt by lia.
  rewrite lookup_drop. rewrite <- Hx. f_equal. lia.
Qed.

(** Changing one byte between the id and the last parameter of a packet
    into another byte changes the checksum computed for it. *)
Theorem check_sum_detects_byte_change (pkt : list Z) (i : nat)
    (old new : Z) :
  (2 <= i)%nat -> (i < pred (length pkt))%nat ->
  pkt !! i = Some old ->
  is_byte old = true -> is_byte new = true -> old <> new ->
  Dynamixel.__check_sum (<[i := new]> pkt) <> Dynamixel.__check_sum pkt.
Proof.
  intros H2 Hi Hold Hbo Hbn Hne Heq. unfold Dynamixel.__check_sum in Heq.
  rewrite !land_lnot_255 in Heq.
  rewrite slice_to_last_insert in Heq by done.
  rewrite (sum_insert _ _ old new) in Heq
    by (by apply slice_to_last_lookup).
  unfold is_byte in Hbo, Hbn.
  apply andb_prop in Hbo as [Ho1 Ho2]. apply andb_prop in Hbn as [Hn1 Hn2].
  apply Z.leb_le in Ho1, Hn1. apply Z.ltb_lt in Ho2, Hn2.
  set (t := sum (slice_to_last 2 pkt)) in *.
  assert (Hm : (new - old) mod 256 = 0).
  { replace (new - old) with ((- t - 1) - (- (t - old + new) - 1)) by lia.
    rewrite Zminus_mod, Heq, Z.sub_diag. reflexivity. }
  apply Z.mod_divide in Hm; [| lia]. destruct Hm as [q Hq]. lia.
Qed.

Lemma check_sum_detects_byte_change_witness :
  Dynamixel.__check_sum (<[5%nat := 21]> [255; 255; 1; 3; 0; 20; 0])
  <> Dynamixel.__check_sum [255; 255; 1; 3; 0; 20; 0].
Proof.
  refine (check_sum_detects_byte_change [255; 255; 1; 3; 0; 20; 0] 5 20 21
            _ _ _ _ _ _); simpl; try reflexivity; lia.
Defined.

(** ** Instruction frames and the status read that follows them *)

Lemma set_last_app {S} (body : list Z) (x v : Z) (s : S) :
  set_last (body ++ [x]) v s = (Ok (body ++ [v]), s).
Proof.
  unfold set_last. destruct (body ++ [x]) eqn:E.
  - by destruct body.
  - rewrite <- E. unfold ret. f_equal. f_equal.
    rewrite set_last_snoc by (by destruct body).
    by rewrite removelast_last.
Qed.

Lemma check_sum_app (body : list Z) (x : Z) :
  Dynamixel.__check_sum (body ++ [x])
  = Z.land (Z.lnot (sum (drop 2 body))) 0xFF.
Proof. unfold Dynamixel.__check_sum. by rewrite slice_to_last_snoc. Qed.

(** [__send_packet] on a packet [body ++ [x]], [x] being the placeholder
    for the checksum. *)
Lemma send_packet_spec (body : list Z) (x : Z) (read_pkt : bool)
    (s : state) :
  let frame := body ++ [Z.land (Z.lnot (sum (drop 2 body))) 0xFF] in
  let s1 := mkState (self s) (after_write frame (env s)) in
  Dynamixel.__send_packet (body ++ [x]) read_pkt s
  = if forallb is_byte frame
    then (Ok tt,
          if (return_level (self s) =? 2) && negb read_pkt
          then snd (Dynamixel.__read_status_pkt 6 s1)
          else s1)
    else (Raise ValueError, s).
Proof.
  intros frame s1. unfold Dynamixel.__send_packet.
  rewrite bind_eq, set_last_app, check_sum_app. fold frame.
  cbv beta iota. rewrite bind_eq. unfold bytearray.
  destruct (forallb is_byte frame); [| reflexivity].
  cbv beta iota delta [ret]. rewrite bind_eq.
  change (lift (serial_write frame) s) with (Ok (Z.of_nat (length frame)), s1).
  cbv beta iota. rewrite bind_eq. cbv beta iota delta [gets].
  change (return_level (self s1)) with (return_level (self s)).
  destruct ((return_level (self s) =? 2) && negb read_pkt); [| reflexivity].
  rewrite bind_eq. change Dynamixel.__STATUS_PACKET_BASE_LENGTH with 6.
  rewrite read_status_pkt_spec. reflexivity.
Qed.

Lemma read_status_pkt_line (n : Z) (s : state) :
  sent (env (snd (Dynamixel.__read_status_pkt n s))) = sent (env s)
  /\ requested (port (env (snd (Dynamixel.__read_status_pkt n s))))
     = requested (port (env s)) ++ [n].
Proof.
  rewrite read_status_pkt_spec. cbn [snd env]. unfold sent.
  rewrite log_excep_port. by split.
Qed.

(** [_write_n_byte_pkt]: when the id, the length, the register and the
    data fit a byte each, the frame
    [FF FF id len(data)+3 instr register data... checksum] goes to the
    line, [instr] being 3 for a direct and 4 for a triggered write; a
    status packet of six bytes is then read exactly when the return level
    is 2 and [return_status] is false; the call returns normally. *)
Theorem write_n_byte_frame (register : Z) (data : list Z)
    (trigger return_status : bool) (s : state) :
  let instr := if trigger then 3 else 4 in
  let body := [255; 255; id (self s); Z.of_nat (length data) + 3; instr;
               register] ++ data in
  let frame := body ++ [Z.land (Z.lnot (sum (drop 2 body))) 0xFF] in
  forallb is_byte frame = true ->
  let r := Dynamixel._write_n_byte_pkt register data trigger return_status s in
  fst r = Ok tt
  /\ sent (env (snd r)) = sent (env s) ++ [frame]
  /\ requested (port (env (snd r)))
     = requested (port (env s))
       ++ (if (return_level (self s) =? 2) && negb return_status
           then [6] else []).
Proof.
  intros instr body frame Hb r. subst r.
  unfold Dynamixel._write_n_byte_pkt. rewrite bind_eq.
  cbv beta iota delta [gets].
  assert (Hp : (if trigger
                then <[4%nat:=Dynamixel.__DIRECT_ACTION]>
                       (<[5%nat:=register]>
                          (<[3%nat:=Z.of_nat (length data) + 3]>
                             (<[2%nat:=id (self s)]>
                                Dynamixel.__pkt_write_n_byte)))
                else <[4%nat:=Dynamixel.__TRIGGERT_ACTION]>
                       (<[5%nat:=register]>
                          (<[3%nat:=Z.of_nat (length data) + 3]>
                             (<[2%nat:=id (self s)]>
                                Dynamixel.__pkt_write_n_byte))))
               ++ data = body).
  { subst body instr. by destruct trigger. }
  rewrite Hp, send_packet_spec. fold frame. rewrite Hb.
  split; [reflexivity |]. cbn [snd].
  destruct ((return_level (self s) =? 2) && negb return_status).
  - destruct (read_status_pkt_line 6
                (mkState (self s) (after_write frame (env s)))) as [H1 H2].
    rewrite H1, H2. by split.
  - split; [reflexivity |]. cbn. by rewrite app_nil_r.
Qed.

Lemma write_n_byte_frame_witness :
  sent (env (snd (Dynamixel._write_n_byte_pkt 0x05 [10] true false
                    (mkState (default_joint 1 false) quiet_world))))
  = [[255; 255; 1; 4; 3; 5; 10; 232]].
Proof.
  refine (proj1 (proj2 (write_n_byte_frame 0x05 [10] true false
                          (mkState (default_joint 1 false) quiet_world) _))).
  reflexivity.
Defined.

(** [_write_n_byte_pkt] when some element of the frame does not fit a
    byte (an id, a register or a data value outside 0..255, or more than
    252 data bytes): [bytearray] raises ValueError, which reaches the
    caller, and nothing has been written or read. *)
Theorem write_n_byte_rejects_non_bytes (register : Z) (data : list Z)
    (trigger return_status : bool) (s : state) :
  let instr := if trigger then 3 else 4 in
  let body := [255; 255; id (self s); Z.of_nat (length data) + 3; instr;
               register] ++ data in
  forallb is_byte body = false ->
  Dynamixel._write_n_byte_pkt register data trigger return_status s
  = (Raise ValueError, s).
Proof.
  intros instr body Hb.
  unfold Dynamixel._write_n_byte_pkt. rewrite bind_eq.
  cbv beta iota delta [gets].
  assert (Hp : (if trigger
                then <[4%nat:=Dynamixel.__DIRECT_ACTION]>
                       (<[5%nat:=register]>
                          (<[3%nat:=Z.of_nat (length data) + 3]>
                             (<[2%nat:=id (self s)]>
                                Dynamixel.__pkt_write_n_byte)))
                else <[4%nat:=Dynamixel.__TRIGGERT_ACTION]>
                       (<[5%nat:=register]>
                          (<[3%nat:=Z.of_nat (length data) + 3]>
                             (<[2%nat:=id (self s)]>
                                Dynamixel.__pkt_write_n_byte))))
               ++ data = body).
  { subst body instr. by destruct trigger. }
  rewrite Hp, send_packet_spec.
  rewrite forallb_app, Hb. reflexivity.
Qed.

Lemma write_n_byte_rejects_non_bytes_witness :
  Dynamixel._write_n_byte_pkt 0x1E [300] true false
    (mkState (default_joint 1 false) quiet_world)
  = (Raise ValueError, mkState (default_joint 1 false) quiet_world).
Proof.
  refine (write_n_byte_rejects_non_bytes 0x1E [300] true false
            (mkState (default_joint 1 false) quiet_world) _).
  reflexivity.
Defined.

Lemma write_n_byte_pkt_eq (register : Z) (data : list Z)
    (trigger return_status : bool) (s : state) :
  Dynamixel._write_n_byte_pkt register data trigger return_status s
  = Dynamixel.__send_packet
      (([255; 255; id (self s); Z.of_nat (length data) + 3;
         (if trigger then 3 else 4); register] ++ data) ++ [0])
      return_status s.
Proof.
  unfold Dynamixel._write_n_byte_pkt. rewrite bind_eq.
  cbv beta iota delta [gets]. by destruct trigger.
Qed.

Lemma word_bytes_arith (w : Z) :
  Dynamixel.word_bytes w = [w mod 256; (w / 256) mod 256].
Proof.
  unfold Dynamixel.word_bytes. change 0xFF with (Z.ones 8).
  rewrite !Z.land_ones by lia. by rewrite Z.shiftr_div_pow2 by lia.
Qed.

Lemma forallb_word_bytes (words : list Z) :
  forallb is_byte (concat (Dynamixel.word_bytes <$> words)) = true.
Proof.
  induction words as [|w words IH]; [reflexivity |].
  cbn [fmap list_fmap concat]. rewrite forallb_app, IH.
  unfold Dynamixel.word_bytes. cbn [forallb].
  by rewrite !is_byte_land_255.
Qed.

Lemma length_word_bytes (words : list Z) :
  length (concat (Dynamixel.word_bytes <$> words)) = (2 * length words)%nat.
Proof.
  induction words as [|w words IH]; [reflexivity |].
  cbn [fmap list_fmap concat]. rewrite length_app, IH. simpl. lia.
Qed.

Lemma write_n_word_pkt_line (register : Z) (words : list Z) (trigger : bool)
    (s : state) :
  is_byte (id (self s)) = true ->
  is_byte register = true ->
  (length words <= 126)%nat ->
  let data := concat ((fun w => [w mod 256; (w / 256) mod 256]) <$> words) in
  let body := [255; 255; id (self s); 2 * Z.of_nat (length words) + 3;
               (if trigger then 3 else 4); register] ++ data in
  let r := Dynamixel._write_n_word_pkt register words trigger s in
  fst r = Ok tt
  /\ sent (env (snd r))
     = sent (env s) ++ [body ++ [Z.land (Z.lnot (sum (drop 2 body))) 0xFF]].
Proof.
  intros Hid Hreg Hlen data body r. subst r.
  unfold Dynamixel._write_n_word_pkt.
  assert (Hd : concat (Dynamixel.word_bytes <$> words) = data).
  { subst data. f_equal. apply list_fmap_ext. intros _ w _.
    apply word_bytes_arith. }
  rewrite write_n_byte_pkt_eq.
  assert (Hl : Z.of_nat (length (concat (Dynamixel.word_bytes <$> words))) + 3
               = 2 * Z.of_nat (length words) + 3)
    by (rewrite length_word_bytes; lia).
  rewrite Hl, Hd. fold body. rewrite send_packet_spec.
  assert (Hb : forallb is_byte
                 (body ++ [Z.land (Z.lnot (sum (drop 2 body))) 255]) = true).
  { rewrite forallb_app. cbn [forallb]. rewrite is_byte_land_255.
    subst body. rewrite forallb_app. rewrite <- Hd, forallb_word_bytes.
    cbn [forallb]. rewrite Hid, Hreg.
    assert (is_byte (2 * Z.of_nat (length words) + 3) = true) as ->.
    { unfold is_byte. apply andb_true_intro.
      split; [apply Z.leb_le | apply Z.ltb_lt]; lia. }
    by destruct trigger. }
  rewrite Hb. split; [reflexivity |]. cbn [snd].
  destruct (_ && _); [| reflexivity].
  apply read_status_pkt_line.
Qed.

(** [_write_n_word_pkt]: every word goes out as two bytes, low byte
    first, whatever its value (a negative word or one above 65535 is cut
    to its low sixteen bits and never makes the write fail); with an id
    and a register that fit a byte and at most 126 words the frame
    [FF FF id 2n+3 instr register lo1 hi1 ... checksum] is sent and the
    call returns normally. *)
Theorem write_n_word_frame (register : Z) (words : list Z) (trigger : bool)
    (s : state) :
  is_byte (id (self s)) = true ->
  is_byte register = true ->
  (length words <= 126)%nat ->
  let data := concat ((fun w => [w mod 256; (w / 256) mod 256]) <$> words) in
  let body := [255; 255; id (self s); 2 * Z.of_nat (length words) + 3;
               (if trigger then 3 else 4); register] ++ data in
  let r := Dynamixel._write_n_word_pkt register words trigger s in
  fst r = Ok tt
  /\ sent (env (snd r))
     = sent (env s) ++ [body ++ [Z.land (Z.lnot (sum (drop 2 body))) 0xFF]].
Proof. apply write_n_word_pkt_line. Qed.

Lemma write_n_word_frame_witness :
  sent (env (snd (Dynamixel._write_n_word_pkt 0x1E [512] true
                    (mkState (default_joint 2 false) quiet_world))))
  = [[255; 255; 2; 5; 3; 30; 0; 2; 213]].
Proof.
  refine (proj2 (write_n_word_frame 0x1E [512] true
                   (mkState (default_joint 2 false) quiet_world) _ _ _));
    try reflexivity.
  simpl. lia.
Defined.

(** The two bytes written for a word and [__merge_two_bytes], which the
    getters apply to the two bytes read: together they give back the low
    sixteen bits of the word (the word itself when it lies in 0..65535). *)
Theorem merge_two_bytes_of_word_bytes (w : Z) :
  exists lo hi,
    Dynamixel.word_bytes w = [lo; hi]
    /\ is_byte lo = true /\ is_byte hi = true
    /\ ServoAx12a.__merge_two_bytes hi lo = w mod 65536.
Proof.
  exists (Z.land w 0xFF), (Z.land (Z.shiftr w 8) 0xFF).
  split; [reflexivity |]. rewrite !is_byte_land_255.
  split; [reflexivity |]. split; [reflexivity |].
  pose proof (word_bytes_arith w) as Hw. unfold Dynamixel.word_bytes in Hw.
  inversion Hw as [[H1 H2]]. rewrite H1, H2.
  unfold ServoAx12a.__merge_two_bytes.
  change 65536 with (256 * 256). rewrite (Z.rem_mul_r w 256 256) by lia.
  lia.
Qed.

(** ** Register reads *)

Lemma request_n_byte_eq (register count : Z) (s : state) :
  is_byte (id (self s)) = true ->
  is_byte register = true ->
  is_byte count = true ->
  let request :=
    [255; 255; id (self s); 4; 2; register; count;
     Z.land (Z.lnot (sum [id (self s); 4; 2; register; count])) 0xFF] in
  let raw := received (6 + count) (env s) in
  Dynamixel._request_n_byte register count s
  = (Ok (slice_to_last 5 raw),
     mkState (self (set_err (err_after raw (self s)) s))
       (snd (Dynamixel.__log_excep (err_after raw (self s))
               (after_read (6 + count) (after_write request (env s)))))).
Proof.
  intros Hid Hreg Hcount request raw.
  unfold Dynamixel._request_n_byte. rewrite bind_eq.
  unfold Dynamixel.__write_read_data_pkt. rewrite bind_eq.
  cbv beta iota delta [gets].
  change (<[6%nat:=count]> (<[5%nat:=register]>
            (<[2%nat:=id (self s)]> Dynamixel.__pkt_read_data)))
    with ([255; 255; id (self s); 4; 2; register; count] ++ [0]).
  rewrite send_packet_spec.
  change ([255; 255; id (self s); 4; 2; register; count] ++
          [Z.land (Z.lnot (sum (drop 2
             [255; 255; id (self s); 4; 2; register; count]))) 255])
    with request.
  assert (Hb : forallb is_byte request = true).
  { subst request. simpl.
    rewrite Hid, Hreg, Hcount, is_byte_land_255. reflexivity. }
  rewrite Hb, andb_false_r. cbv beta iota. rewrite bind_eq.
  change Dynamixel.__STATUS_PACKET_BASE_LENGTH with 6.
  rewrite read_status_pkt_spec. reflexivity.
Qed.

Lemma slice_short (raw : list Z) :
  (length raw < 8)%nat -> slice_to_last 5 raw !! 1%nat = None.
Proof.
  intros H. apply lookup_ge_None. unfold slice_to_last.
  rewrite removelast_firstn_len, length_take, length_drop. lia.
Qed.

(** Reading one word from a register and merging its two bytes, as
    [get_goal_position], [get_moving_speed], [get_present_position] and
    [get_present_speed] do. *)
Lemma word_reply (register : Z) (s : state) :
  is_byte (id (self s)) = true ->
  is_byte register = true ->
  let raw := received 8 (env s) in
  let r := (let* return_data := Dynamixel._request_n_word register 1 in
            ServoAx12a.merge_reply return_data) s in
  (forall i l e lo hi ck,
     raw = [255; 255; i; l; e; lo; hi; ck] -> fst r = Ok (hi * 256 + lo))
  /\ ((length raw < 8)%nat -> fst r = Raise IndexError)
  /\ requested (port (env (snd r))) = requested (port (env s)) ++ [8].
Proof.
  intros Hid Hreg raw r. subst r. rewrite bind_eq.
  unfold Dynamixel._request_n_word. change (Z.shiftl 1 1) with 2.
  rewrite request_n_byte_eq by done. change (6 + 2) with 8. fold raw.
  cbv beta iota. unfold ServoAx12a.merge_reply. rewrite bind_eq.
  unfold ServoAx12a.item.
  split; [| split].
  - intros i l e lo hi ck Hraw. rewrite Hraw. reflexivity.
  - intros Hshort. by rewrite (slice_short raw Hshort).
  - destruct (slice_to_last 5 raw !! 1%nat) as [hi|];
      [destruct (slice_to_last 5 raw !! 0%nat) |];
      cbv beta iota delta [ret bind raise]; cbn [snd env];
      by rewrite log_excep_port.
Qed.

(** The word getters of [ServoAx12a]: on a complete status packet of
    eight bytes the result is [high * 256 + low] of the two parameter
    bytes; when fewer than eight bytes arrive (a timeout, say) the getter
    raises IndexError, which is not caught; either way one read of eight
    bytes is made. *)
Theorem word_getters_decode_or_fail (s : state) :
  is_byte (id (self s)) = true ->
  let raw := received 8 (env s) in
  Forall (fun getter : M state Z =>
            (forall i l e lo hi ck,
               raw = [255; 255; i; l; e; lo; hi; ck] ->
               fst (getter s) = Ok (hi * 256 + lo))
            /\ ((length raw < 8)%nat -> fst (getter s) = Raise IndexError)
            /\ requested (port (env (snd (getter s))))
               = requested (port (env s)) ++ [8])
    [ServoAx12a.get_goal_position; ServoAx12a.get_moving_speed;
     ServoAx12a.get_present_position; ServoAx12a.get_present_speed].
Proof.
  intros Hid raw.
  repeat constructor; by apply word_reply.
Qed.

Lemma word_getters_decode_or_fail_witness :
  fst (ServoAx12a.get_goal_position
         (mkState (default_joint 1 false)
                  (world_with [[255; 255; 1; 4; 0; 0; 2; 248]])))
  = Ok 512.
Proof.
  pose proof (word_getters_decode_or_fail
                (mkState (default_joint 1 false)
                   (world_with [[255; 255; 1; 4; 0; 0; 2; 248]]))
                eq_refl) as H.
  inversion H as [|g l [Hfull _] _]; subst.
  exact (Hfull 1 4 0 0 2 248 eq_refl).
Defined.

(** ** Ping, action and the return level *)

(** [ping]: for an id that fits a byte the frame [FF FF id 02 01 checksum]
    is written and one read of six bytes is made, whose bytes are
    returned as they came (the empty list when nothing arrives); the
    error byte of the answer is not decoded, so the debug log and the
    console stay as they were. For any other id ValueError reaches the
    caller and the line is not touched. *)
Theorem ping_exchange (id_ : Z) (w : world) :
  Dynamixel.ping id_ w
  = if is_byte id_
    then (Ok (received 6 w),
          after_read 6
            (after_write
               [255; 255; id_; 2; 1;
                Z.land (Z.lnot (sum [id_; 2; 1])) 0xFF] w))
    else (Raise ValueError, w).
Proof.
  unfold Dynamixel.ping. rewrite bind_eq.
  change (<[2%nat:=id_]> Dynamixel.__pkt_ping)
    with ([255; 255; id_; 2; 1] ++ [0]).
  rewrite set_last_app, check_sum_app. cbv beta iota. rewrite bind_eq.
  unfold bytearray.
  change (drop 2 [255; 255; id_; 2; 1]) with [id_; 2; 1].
  assert (Hb : forallb is_byte
                 ([255; 255; id_; 2; 1]
                  ++ [Z.land (Z.lnot (sum [id_; 2; 1])) 255])
               = is_byte id_).
  { simpl. rewrite is_byte_land_255. by destruct (is_byte id_). }
  rewrite Hb. destruct (is_byte id_); reflexivity.
Qed.

(** [action] on a servo whose id fits a byte: the frame
    [FF FF id 02 05 checksum] is written, and a status packet of six
    bytes is read exactly when the return level is 2. *)
Theorem action_frame (s : state) :
  is_byte (id (self s)) = true ->
  let frame := [255; 255; id (self s); 2; 5;
                Z.land (Z.lnot (sum [id (self s); 2; 5])) 0xFF] in
  let r := Dynamixel.action s in
  fst r = Ok tt
  /\ sent (env (snd r)) = sent (env s) ++ [frame]
  /\ requested (port (env (snd r)))
     = requested (port (env s))
       ++ (if return_level (self s) =? 2 then [6] else []).
Proof.
  intros Hid frame r. subst r. unfold Dynamixel.action. rewrite bind_eq.
  cbv beta iota delta [gets]. unfold Dynamixel.__do_action.
  change (<[2%nat:=id (self s)]> Dynamixel.__pkt_action)
    with ([255; 255; id (self s); 2; 5] ++ [0]).
  rewrite send_packet_spec.
  change ([255; 255; id (self s); 2; 5] ++
          [Z.land (Z.lnot (sum (drop 2 [255; 255; id (self s); 2; 5]))) 255])
    with frame.
  assert (Hb : forallb is_byte frame = true).
  { subst frame. simpl. by rewrite Hid, is_byte_land_255. }
  rewrite Hb, andb_true_r. split; [reflexivity |]. cbn [snd].
  destruct (return_level (self s) =? 2).
  - destruct (read_status_pkt_line 6
                (mkState (self s) (after_write frame (env s)))) as [H1 H2].
    rewrite H1, H2. by split.
  - split; [reflexivity |]. cbn. by rewrite app_nil_r.
Qed.

Lemma action_frame_witness :
  sent (env (snd (Dynamixel.action
                    (mkState (default_joint 1 false) quiet_world))))
  = [[255; 255; 1; 2; 5; 247]].
Proof.
  refine (proj1 (proj2 (action_frame
                          (mkState (default_joint 1 false) quiet_world) _))).
  reflexivity.
Defined.

Lemma read_status_pkt_return_level (n : Z) (s : state) :
  return_level (self (snd (Dynamixel.__read_status_pkt n s)))
  = return_level (self s).
Proof. rewrite read_status_pkt_spec. reflexivity. Qed.

(** [set_return_level] with an id and a level that fit a byte: the write
    frame for register [0x10] goes out, the new level is stored in the
    object, and a status packet is read exactly when the level stored
    before the call was 2; the [switch_level] flag computed from the old
    and the new level never changes that. *)
Theorem set_return_level_exchange (level : Z) (trigger : bool) (s : state) :
  is_byte (id (self s)) = true ->
  is_byte level = true ->
  let body := [255; 255; id (self s); 4; (if trigger then 3 else 4); 0x10;
               level] in
  let r := ServoAx12a.set_return_level level trigger s in
  fst r = Ok tt
  /\ return_level (self (snd r)) = level
  /\ sent (env (snd r))
     = sent (env s) ++ [body ++ [Z.land (Z.lnot (sum (drop 2 body))) 0xFF]]
  /\ requested (port (env (snd r)))
     = requested (port (env s))
       ++ (if return_level (self s) =? 2 then [6] else []).
Proof.
  intros Hid Hlevel body r. subst r.
  unfold ServoAx12a.set_return_level. rewrite bind_eq.
  cbv beta iota delta [gets]. rewrite bind_eq, write_n_byte_pkt_eq.
  change ([255; 255; id (self s); Z.of_nat (length [level]) + 3;
           if trigger then 3 else 4; ServoAx12a.__RETURN_LEVEL] ++ [level])
    with body.
  rewrite send_packet_spec.
  assert (Hb : forallb is_byte
                 (body ++ [Z.land (Z.lnot (sum (drop 2 body))) 255]) = true).
  { subst body. simpl. rewrite Hid, Hlevel, is_byte_land_255.
    by destruct trigger. }
  rewrite Hb.
  assert (Hg : (return_level (self s) =? 2)
               && negb ((return_level (self s) =? 1) && (level =? 2))
               = (return_level (self s) =? 2)).
  { destruct (return_level (self s) =? 2) eqn:E2; [| reflexivity].
    apply Z.eqb_eq in E2. rewrite E2. reflexivity. }
  rewrite Hg. cbv beta iota.
  destruct (return_level (self s) =? 2).
  - split; [reflexivity |]. split; [reflexivity |]. cbn [snd modify env self].
    destruct (read_status_pkt_line 6
                (mkState (self s)
                   (after_write
                      (body ++ [Z.land (Z.lnot (sum (drop 2 body))) 255])
                      (env s)))) as [H1 H2].
    unfold set_return_level_field. cbn [env]. rewrite H1, H2. by split.
  - split; [reflexivity |]. split; [reflexivity |]. cbn. by rewrite app_nil_r.
Qed.

Lemma set_return_level_exchange_witness :
  requested (port (env (snd (ServoAx12a.set_return_level 2 true
      (set_return_level_field 1
         (mkState (default_joint 1 false) quiet_world))))))
  = [].
Proof.
  refine (proj2 (proj2 (proj2 (set_return_level_exchange 2 true
            (set_return_level_field 1
               (mkState (default_joint 1 false) quiet_world)) _ _))));
    reflexivity.
Defined.

(** ** The error decoder on a high bit *)

(** An error value whose lowest set bit is at position 7 or above (for a
    byte: [0x80]) runs the loop past the end of [err_lst]; the IndexError
    is caught by the decorator: nothing is logged, the two lines are
    printed and the call returns [None]. *)
Theorem log_excep_past_the_table (err : Z) (k : nat) (w : world) :
  0 <= err -> lowest_set_bit err k -> (7 <= k)%nat ->
  Dynamixel.__log_excep err w = (Ok VNone, caught w).
Proof.
  intros Hpos Hk H7. destruct err as [|p|p]; [| | lia].
  - destruct Hk as [Hk _]. by rewrite Z.testbit_0_l in Hk.
  - rewrite (lowest_set_bit_unique _ _ _ Hk (ctz_lowest p)) in H7.
    unfold Dynamixel.__log_excep, decorator_error_handling,
      Dynamixel.__log_excep_body.
    simpl (_ =? _). cbv iota.
    unfold Dynamixel.reversed_bits, Dynamixel.zfill_reversed.
    rewrite scan_bits_digits. unfold outcome_at. simpl (0 + _)%nat.
    assert (Dynamixel.err_lst !! ctz p = None) as ->
      by (apply lookup_ge_None; simpl; lia).
    reflexivity.
Qed.

Lemma log_excep_past_the_table_witness :
  Dynamixel.__log_excep 0x80 quiet_world = (Ok VNone, caught quiet_world).
Proof.
  refine (log_excep_past_the_table 0x80 7 quiet_world _ _ _); try lia.
  split; [reflexivity |].
  intros j Hj. do 7 (destruct j as [|j]; [reflexivity |]). lia.
Defined.

(** ** Unit conversion *)

Lemma forallb_seq_0 (f : nat -> bool) (len n : nat) :
  forallb f (seq 0 len) = true -> (n < len)%nat -> f n = true.
Proof.
  intros H Hn. rewrite forallb_forall in H. apply H, in_seq. lia.
Qed.

Lemma bounded_Z_of_nat (t hi : Z) :
  0 <= t <= hi -> exists n, t = Z.of_nat n /\ (n < Z.to_nat (hi + 1))%nat.
Proof. intros H. exists (Z.to_nat t). lia. Qed.

(** For a joint built with the default offset, and for both rotation
    senses: every register value 0..1023 turned into an angle and back
    into ticks comes back as the same tick or the tick below it. *)
Theorem ticks_round_trip (ccw : bool) (t : Z) :
  0 <= t <= 1023 ->
  exists t',
    ticks_there_and_back ccw (a_offset (default_joint 0 ccw)) t = Ok t'
    /\ t - 1 <= t' <= t.
Proof.
  intros Ht. destruct (bounded_Z_of_nat t 1023 Ht) as (n & -> & Hn).
  assert (Hall : forall c,
    forallb (fun n => same_or_below (Z.of_nat n)
               (ticks_there_and_back c (a_offset (default_joint 0 c))
                  (Z.of_nat n)))
            (seq 0 1024) = true).
  { intros [|]; vm_compute; reflexivity. }
  pose proof (forallb_seq_0 _ _ n (Hall ccw) Hn) as H.
  unfold same_or_below in H.
  destruct (ticks_there_and_back ccw _ (Z.of_nat n)) as [t'|e];
    [| discriminate].
  exists t'. split; [reflexivity |].
  apply andb_prop in H as [H1 H2].
  apply Z.leb_le in H1, H2. lia.
Qed.

Lemma ticks_round_trip_witness :
  exists t',
    ticks_there_and_back true (a_offset (default_joint 0 true)) 0 = Ok t'
    /\ 0 - 1 <= t' <= 0.
Proof. refine (ticks_round_trip true 0 _). lia. Defined.

Lemma math_floor_state {S} (x : float) (s : S) :
  math_floor x s = (fst (math_floor (S:=unit) x tt), s).
Proof. unfold math_floor. by destruct (FloatOps.Prim2SF x). Qed.

(** [__convert_ticks_to_speed] clamps: for every tick value that fits a
    64-bit integer it returns normally, with a speed between 0 and 113
    rpm. *)
Theorem ticks_to_speed_range {S} (ticks : Z) (s : S) :
  - 2 ^ 63 <= ticks < 2 ^ 63 ->
  exists v,
    JointDrive.__convert_ticks_to_speed ticks s = (Ok v, s)
    /\ 0 <= v <= 113.
Proof.
  intros _. unfold JointDrive.__convert_ticks_to_speed.
  rewrite math_floor_state.
  set (t := Z.min (Z.max ticks 0) ServoAx12a._SPEED_MAX_TICKS).
  assert (Ht : 0 <= t <= 1023)
    by (subst t; unfold ServoAx12a._SPEED_MAX_TICKS; lia).
  destruct (bounded_Z_of_nat t 1023 Ht) as (n & Hn & Hlt). rewrite Hn.
  assert (Hall :
    forallb (fun n => is_rpm (fst (math_floor (S:=unit)
               (float_of_Z (Z.of_nat n) * ServoAx12a._SPEED_UNIT)%float tt)))
            (seq 0 1024) = true) by (vm_compute; reflexivity).
  pose proof (forallb_seq_0 _ _ n Hall Hlt) as H. unfold is_rpm in H.
  destruct (fst (math_floor _ tt)) as [v|e]; [| discriminate].
  exists v. split; [reflexivity |].
  apply andb_prop in H as [H1 H2]. apply Z.leb_le in H1, H2. lia.
Qed.

Lemma ticks_to_speed_range_witness :
  exists v,
    JointDrive.__convert_ticks_to_speed 2000 tt = (Ok v, tt)
    /\ 0 <= v <= 113.
Proof. refine (ticks_to_speed_range 2000 tt _). lia. Defined.

(** ** The other setters of the joint *)

(** [set_speed_rpm] and [set_speed_percent] refuse a speed outside their
    range ([speed > _SPEED_MAX_RPM or speed < 0], [perc > 100 or
    perc < 0]): the message is printed, [True] is returned, and the
    object and the serial line are left as they were. *)
Theorem speed_setters_refuse (speed perc : float) (trigger : bool)
    (s : state) :
  (ServoAx12a._SPEED_MAX_RPM <? speed)%float || (speed <? 0)%float = true ->
  (100 <? perc)%float || (perc <? 0)%float = true ->
  JointDrive.set_speed_rpm speed trigger s
  = (Ok VTrue, console (print_line "Invalid speed value") s)
  /\ JointDrive.set_speed_percent perc trigger s
     = (Ok VTrue, console (print_line "Invalid speed value") s).
Proof.
  intros Hs Hp. split.
  - unfold JointDrive.set_speed_rpm, decorator_error_handling,
      JointDrive.set_speed_rpm_body. by rewrite Hs.
  - unfold JointDrive.set_speed_percent, decorator_error_handling,
      JointDrive.set_speed_percent_body. by rewrite Hp.
Qed.

Lemma speed_setters_refuse_witness :
  JointDrive.set_speed_rpm 200 true
    (mkState (default_joint 1 false) quiet_world)
  = (Ok VTrue,
     console (print_line "Invalid speed value")
       (mkState (default_joint 1 false) quiet_world)).
Proof.
  refine (proj1 (speed_setters_refuse 200 (-1) true
                   (mkState (default_joint 1 false) quiet_world) _ _));
    reflexivity.
Defined.

Lemma decorator_keeps_saved (m : M state value) (s : state) :
  savedgoalposition (self (snd (decorator_error_handling m s)))
  = savedgoalposition (self (snd (m s))).
Proof.
  unfold decorator_error_handling. by destruct (m s) as [[v|e] s'].
Qed.

(** After any call of [set_desired_angle_speed], refused or not, failed
    inside or not, [get_saved_goal_position] returns the angle that was
    passed. *)
Theorem set_desired_angle_speed_saves_angle (angle speed : float)
    (trigger : bool) (s : state) :
  fst (JointDrive.get_saved_goal_position
         (snd (JointDrive.set_desired_angle_speed angle speed trigger s)))
  = Ok angle.
Proof.
  unfold JointDrive.get_saved_goal_position, gets. cbn [fst]. f_equal.
  unfold JointDrive.set_desired_angle_speed. rewrite decorator_keeps_saved.
  unfold JointDrive.set_desired_angle_speed_body. rewrite bind_eq.
  cbv beta iota delta [modify].
  match goal with
  | |- context [bind (gets self) ?k (set_savedgoalposition angle s)] =>
      assert (Hs : steps (grows_by_st checksum_ok) (bind (gets self) k))
  end.
  { apply steps_bind; [apply _ | apply steps_gets, _ |]. intros o.
    destruct (_ <? _)%float; [apply grows_by_print_true |].
    destruct (_ <? _)%float; [apply grows_by_print_true |].
    destruct (_ || _); [apply grows_by_print_true |].
    apply steps_bind; [apply _ | apply grows_by_convert_angle_to_ticks |].
    intros angle_ticks.
    apply steps_bind; [apply _ | apply steps_math_floor, _ |].
    intros speed_ticks.
    apply steps_bind; [apply _ | | intros; apply steps_ret, _].
    apply steps_bind; [apply _ | apply grows_by_write_n_word_pkt |].
    intros; apply grows_by_write_n_word_pkt. }
  exact (proj2 (Hs (set_savedgoalposition angle s))).
Qed.

(** ** Sync-write on an empty batch *)

(** With no entries the length of [id_lst] is zero, the division raises
    ZeroDivisionError, the decorator catches it: nothing is written and
    [None] is returned. *)
Theorem sync_write_empty_batch (mem_address : Z) (w : world) :
  Dynamixel._sync_write_body mem_address [] w = (Raise ZeroDivisionError, w)
  /\ Dynamixel._sync_write mem_address [] w = (Ok VNone, caught w).
Proof. split; reflexivity. Qed.

(** ** Sync-write on a batch of entries of one length *)

Lemma length_concat_uniform (n : nat) (l : list Dynamixel.sync_entry) :
  uniform n l -> length (concat (snd <$> l)) = (length l * n)%nat.
Proof.
  induction 1 as [|e l He _ IH]; [reflexivity |].
  cbn [fmap list_fmap concat length]. rewrite length_app, IH, He.
  simpl. lia.
Qed.

Lemma uniform_never_fires (n : nat) (packet : list Dynamixel.sync_entry) :
  uniform n packet -> check_fires packet = false.
Proof.
  intros Hu. unfold check_fires.
  destruct (existsb _ _) eqn:E; [| reflexivity].
  apply existsb_exists in E as (k & Hin & Hk). apply in_seq in Hin.
  unfold counts_mismatch_at in Hk.
  rewrite (length_concat_uniform n) in Hk
    by (apply Forall_take; exact Hu).
  rewrite length_take_le in Hk by lia.
  rewrite Nat2Z.inj_mul, Z.mul_comm, Z.mod_mul in Hk by lia.
  discriminate.
Qed.

Lemma int_of_float_unit {S} (x : float) (s : S) :
  int_of_float x s = (fst (int_of_float (S:=unit) x tt), s).
Proof. unfold int_of_float. by destruct (FloatOps.Prim2SF x). Qed.

(** The floating-point quotient is exact for every batch that fits one
    packet ([m <= 251] and [m * n <= 125] follow from the bound on the
    length byte). *)
Lemma data_length_table (m n : nat) :
  (1 <= m <= 251)%nat -> (m * n <= 125)%nat -> data_length_ok m n = true.
Proof.
  intros Hm Hn.
  assert (Hall :
    forallb (fun m' => forallb (fun n' => data_length_ok (Datatypes.S m') n')
                         (seq 0 (Datatypes.S (125 / Datatypes.S m'))))
            (seq 0 251) = true) by (vm_compute; reflexivity).
  pose proof (forallb_seq_0 _ _ (pred m) Hall ltac:(lia)) as H1.
  cbv beta in H1.
  replace (Datatypes.S (pred m)) with m in H1 by lia.
  apply (forallb_seq_0 _ _ n H1).
  apply Nat.lt_succ_r, Nat.div_le_lower_bound; lia.
Qed.

Lemma sync_payload_eq (packet : list Dynamixel.sync_entry) :
  concat ((fun param : Dynamixel.sync_entry =>
             fst param :: concat (Dynamixel.word_bytes <$> snd param))
          <$> packet)
  = sync_payload packet.
Proof.
  unfold sync_payload. f_equal. apply list_fmap_ext. intros _ e _.
  f_equal. f_equal. apply list_fmap_ext. intros _ v _.
  apply word_bytes_arith.
Qed.

Lemma forallb_sync_payload (packet : list Dynamixel.sync_entry) :
  Forall (fun e => is_byte (fst e) = true) packet ->
  forallb is_byte (sync_payload packet) = true.
Proof.
  intros H. rewrite <- sync_payload_eq.
  induction H as [|e l He _ IH]; [reflexivity |].
  cbn [fmap list_fmap concat]. rewrite forallb_app, IH.
  cbn [forallb]. by rewrite He, forallb_word_bytes.
Qed.

(** A nonempty batch in which every entry carries the same number [n] of
    values, with ids and address that fit a byte and a total that fits
    the length byte: the call returns normally, nothing is read, and
    exactly one frame is written,
    [FF FF FE len 83 address 2n  id1 lo hi ...  id2 lo hi ...  checksum]
    with [len = (2n + 1) * m + 4] for the [m] entries. *)
Theorem sync_write_uniform_frame (mem_address : Z)
    (packet : list Dynamixel.sync_entry) (n : nat) (w : world) :
  packet <> [] ->
  uniform n packet ->
  is_byte mem_address = true ->
  Forall (fun e => is_byte (fst e) = true) packet ->
  (2 * Z.of_nat n + 1) * Z.of_nat (length packet) + 4 < 256 ->
  let body :=
    [255; 255; 254; (2 * Z.of_nat n + 1) * Z.of_nat (length packet) + 4;
     0x83; mem_address; 2 * Z.of_nat n] ++ sync_payload packet in
  Dynamixel._sync_write mem_address packet w
  = (Ok VNone,
     after_write (body ++ [Z.land (Z.lnot (sum (drop 2 body))) 0xFF]) w).
Proof.
  intros Hne Hu Haddr Hids Hlen body.
  assert (Hm : (1 <= length packet)%nat)
    by (destruct packet; simpl; [done | lia]).
  assert (Hm' : (length packet <= 251)%nat) by nia.
  assert (Hn : (length packet * n <= 125)%nat) by nia.
  unfold Dynamixel._sync_write, decorator_error_handling,
    Dynamixel._sync_write_body.
  rewrite bind_eq.
  change (Dynamixel.collect packet [] [] w)
    with (Dynamixel.collect packet
            (fst <$> (@nil Dynamixel.sync_entry))
            (concat (snd <$> (@nil Dynamixel.sync_entry))) w).
  rewrite collect_fires. simpl app. simpl length.
  pose proof (uniform_never_fires n packet Hu) as Hf.
  unfold check_fires in Hf. rewrite Hf. cbv beta iota.
  rewrite bind_eq. unfold Dynamixel.true_div.
  rewrite length_fmap, (length_concat_uniform n packet Hu).
  unfold Dynamixel.sync_entry in *.
  match goal with
  | |- context [if ?c then raise ZeroDivisionError else _] =>
      assert (c = false) as -> by (apply Z.eqb_neq; lia)
  end.
  cbv beta iota delta [ret]. rewrite bind_eq, int_of_float_unit.
  pose proof (data_length_table (length packet) n ltac:(lia) Hn) as Ht.
  unfold data_length_ok in Ht.
  destruct (int_of_float _ tt) as [[d|e] u]; [| discriminate].
  apply Z.eqb_eq in Ht. subst d. cbn [fst]. cbv beta iota.
  rewrite bind_eq, sync_payload_eq.
  change (<[6%nat:=2 * Z.of_nat n]>
            (<[5%nat:=mem_address]>
               (<[3%nat:=(2 * Z.of_nat n + 1) * Z.of_nat (length packet) + 4]>
                  Dynamixel.__pkt_sync_write)) ++ sync_payload packet)
    with body.
  unfold Dynamixel._send_sync. rewrite bind_eq, set_last_app, check_sum_app.
  cbv beta iota. rewrite bind_eq. unfold bytearray.
  assert (Hb : forallb is_byte
                 (body ++ [Z.land (Z.lnot (sum (drop 2 body))) 255]) = true).
  { rewrite forallb_app. cbn [forallb]. rewrite is_byte_land_255.
    subst body. rewrite forallb_app, (forallb_sync_payload packet Hids).
    cbn [forallb]. rewrite Haddr.
    assert (is_byte ((2 * Z.of_nat n + 1) * Z.of_nat (length packet) + 4)
            = true) as ->.
    { unfold is_byte. apply andb_true_intro.
      split; [apply Z.leb_le | apply Z.ltb_lt]; lia. }
    assert (is_byte (2 * Z.of_nat n) = true) as ->.
    { unfold is_byte. apply andb_true_intro.
      split; [apply Z.leb_le | apply Z.ltb_lt]; lia. }
    reflexivity. }
  rewrite Hb. reflexivity.
Qed.

Lemma sync_write_uniform_frame_witness :
  Dynamixel._sync_write 30 [(1, [512; 100]); (2, [300; 100])] quiet_world
  = (Ok VNone,
     after_write [255; 255; 254; 14; 131; 30; 4;
                  1; 0; 2; 100; 0; 2; 44; 1; 100; 0; 84] quiet_world).
Proof.
  refine (sync_write_uniform_frame 30 [(1, [512; 100]); (2, [300; 100])]
            2 quiet_world _ _ _ _ _).
  - discriminate.
  - repeat constructor.
  - reflexivity.
  - repeat constructor.
  - simpl. lia.
Defined.

(** ** The sync setter of the joint *)

Lemma convert_angle_to_ticks_state {S} angle ccw offset (s : S) :
  snd (JointDrive.__convert_angle_to_ticks angle ccw offset s) = s.
Proof.
  unfold JointDrive.__convert_angle_to_ticks. rewrite bind_eq.
  pose proof (int_of_float_state
                ((angle + offset) * JointDrive._ANGLE_UNIT)%float s) as H.
  by destruct (int_of_float _ s) as [[t|e] s'].
Qed.

Lemma first_entry_raises (data : JointDrive.sync_arg)
    (rest : list JointDrive.sync_arg) (w : world) :
  exists e, JointDrive.convert_entries (data :: rest) w = (Raise e, w).
Proof.
  cbn [JointDrive.convert_entries]. rewrite bind_eq.
  destruct data as [| |o [|angle numbers]].
  - by exists AttributeError.
  - by exists IndexError.
  - by exists IndexError.
  - cbv zeta. destruct (3 <? _); [by exists AttributeError |].
    destruct (_ <? 3); [by exists AttributeError |].
    rewrite bind_eq.
    pose proof (convert_angle_to_ticks_state (S:=world) angle (ccw o)
                  (a_offset o) w) as H.
    destruct (JointDrive.__convert_angle_to_ticks _ _ _ w) as [[t|e] w'];
      simpl in H; subst w'.
    + by exists AttributeError.
    + by exists e.
Qed.

(** [set_angle_speed_sync] never reaches [_sync_write]: called without
    arguments it returns [-1]; called with any arguments it fails on the
    first of them (at the latest on the misspelt converter name), the
    decorator catches the exception, and it returns [None] with the
    serial line and the debug log untouched. *)
Theorem set_angle_speed_sync_never_transmits
    (packet : list JointDrive.sync_arg) (w : world) :
  JointDrive.set_angle_speed_sync packet w
  = match packet with
    | [] => (Ok (Some (-1)), w)
    | _ => (Ok None, caught w)
    end.
Proof.
  destruct packet as [|data rest]; [reflexivity |].
  unfold JointDrive.set_angle_speed_sync, JointDrive.decorated,
    JointDrive.set_angle_speed_sync_body.
  rewrite bind_eq.
  destruct (first_entry_raises data rest w) as [e ->]. reflexivity.
Qed.

(** ** Byte getters and the goal position setter *)

Lemma slice_short_0 (raw : list Z) :
  (length raw < 7)%nat -> slice_to_last 5 raw !! 0%nat = None.
Proof.
  intros H. apply lookup_ge_None. unfold slice_to_last.
  rewrite removelast_firstn_len, length_take, length_drop. lia.
Qed.

Lemma byte_reply (register : Z) (s : state) :
  is_byte (id (self s)) = true ->
  is_byte register = true ->
  let raw := received 7 (env s) in
  let r := (let* d := Dynamixel._request_n_byte register 1 in
            ServoAx12a.item d 0) s in
  (forall i l e v ck, raw = [255; 255; i; l; e; v; ck] -> fst r = Ok v)
  /\ ((length raw < 7)%nat -> fst r = Raise IndexError).
Proof.
  intros Hid Hreg raw r. subst r. rewrite bind_eq.
  rewrite request_n_byte_eq by done. change (6 + 1) with 7. fold raw.
  cbv beta iota. unfold ServoAx12a.item. split.
  - intros i l e v ck Hraw. rewrite Hraw. reflexivity.
  - intros Hshort. by rewrite (slice_short_0 raw Hshort).
Qed.

(** The byte getters of [ServoAx12a]: on a complete status packet of
    seven bytes the result is its one parameter byte; when fewer than
    seven bytes arrive the getter raises IndexError, which is not
    caught. *)
Theorem byte_getters_decode_or_fail (s : state) :
  is_byte (id (self s)) = true ->
  let raw := received 7 (env s) in
  Forall (fun getter : M state Z =>
            (forall i l e v ck,
               raw = [255; 255; i; l; e; v; ck] -> fst (getter s) = Ok v)
            /\ ((length raw < 7)%nat -> fst (getter s) = Raise IndexError))
    [ServoAx12a.get_return_delay; ServoAx12a.get_return_level;
     ServoAx12a.get_moving_status; ServoAx12a.get_present_temperature;
     ServoAx12a.get_present_voltage].
Proof.
  intros Hid raw.
  repeat constructor; by apply byte_reply.
Qed.

Lemma byte_getters_decode_or_fail_witness :
  fst (ServoAx12a.get_present_temperature
         (mkState (default_joint 1 false) quiet_world))
  = Raise IndexError.
Proof.
  pose proof (byte_getters_decode_or_fail
                (mkState (default_joint 1 false) quiet_world) eq_refl) as H.
  inversion H as [|g1 l1 _ H1]; subst.
  inversion H1 as [|g2 l2 _ H2]; subst.
  inversion H2 as [|g3 l3 _ H3]; subst.
  inversion H3 as [|g4 l4 [_ Hshort] _]; subst.
  apply Hshort. simpl. lia.
Defined.

Lemma convert_angle_to_ticks_unit {S} angle ccw offset (s : S) :
  JointDrive.__convert_angle_to_ticks angle ccw offset s
  = (fst (JointDrive.__convert_angle_to_ticks (S:=unit) angle ccw offset tt),
     s).
Proof.
  unfold JointDrive.__convert_angle_to_ticks. rewrite !bind_eq.
  rewrite (int_of_float_unit _ s).
  by destruct (int_of_float (S:=unit) _ tt) as [[t|e] u].
Qed.

(** [set_goal_position] of the joint for an angle within the soft
    limits, on a servo whose id fits a byte. When the angle converts to
    [ticks], the word-write frame for register [0x1E] carrying [ticks],
    low byte first, is written and [None] is returned. When the
    conversion fails (the angle is NaN, which passes both comparisons),
    the decorator catches the error: nothing is written and [None] is
    returned all the same. *)
Theorem set_goal_position_in_limits (angle : float) (trigger : bool)
    (s : state) :
  outside_limits (self s) angle = false ->
  is_byte (id (self s)) = true ->
  let r := JointDrive.set_goal_position angle trigger s in
  match fst (JointDrive.__convert_angle_to_ticks angle (ccw (self s))
               (a_offset (self s)) tt) with
  | Ok ticks =>
      let body := [255; 255; id (self s); 5; (if trigger then 3 else 4);
                   0x1E; ticks mod 256; (ticks / 256) mod 256] in
      fst r = Ok VNone
      /\ sent (env (snd r))
         = sent (env s)
           ++ [body ++ [Z.land (Z.lnot (sum (drop 2 body))) 0xFF]]
  | Raise _ => r = (Ok VNone, caught_st s)
  end.
Proof.
  intros Hin Hid r. subst r.
  unfold outside_limits, too_large, too_small in Hin.
  apply orb_false_elim in Hin as [Hl Hs].
  unfold JointDrive.set_goal_position, decorator_error_handling,
    JointDrive.set_goal_position_body.
  rewrite bind_eq. cbv beta iota delta [gets]. rewrite Hl, Hs.
  rewrite bind_eq.
  rewrite (convert_angle_to_ticks_unit (S:=state) angle (ccw (self s))
             (a_offset (self s)) s).
  destruct (fst (JointDrive.__convert_angle_to_ticks _ _ _ tt))
    as [ticks|e]; [| reflexivity].
  cbv beta iota. rewrite bind_eq. unfold ServoAx12a.set_goal_position.
  destruct (write_n_word_pkt_line ServoAx12a.__GOAL_POSITION [ticks] trigger s
              Hid eq_refl ltac:(simpl; lia)) as [H1 H2].
  destruct (Dynamixel._write_n_word_pkt _ _ _ s) as [[[]|e] s'];
    [| discriminate].
  split; [reflexivity |]. exact H2.
Qed.

Lemma set_goal_position_in_limits_witness :
  sent (env (snd (JointDrive.set_goal_position 0 true
                    (mkState (default_joint 1 true) quiet_world))))
  = [[255; 255; 1; 5; 3; 30; 255; 1; 216]].
Proof.
  refine (proj2 (set_goal_position_in_limits 0 true
                   (mkState (default_joint 1 true) quiet_world) _ _));
    reflexivity.
Defined.
